(** * The Ollama client helper of [src/ollama_helper.py]

    A shallow embedding of the [OllamaHelper] class and of the two
    convenience functions [setup_ollama] and [ask_ai].  Python values are an
    inductive type, dictionaries are association lists in insertion order,
    and the methods run in a small monad that threads the trace of
    observable events (HTTP requests sent, lines printed) and may raise a
    Python exception. *)

From Stdlib Require Import String Ascii ZArith List Bool Lia Floats.
Import ListNotations.
Set Warnings "-register-all".
Local Open Scope string_scope.
Local Open Scope Z_scope.

(** ** Python values *)

(** The values [response.json()] can produce and a JSON body can carry.
    A [str] is a [string], one [ascii] standing for one character. *)
Inductive pyval : Type :=
| PNone
| PBool (b : bool)
| PInt (z : Z)
| PFloat (f : float)
| PStr (s : string)
| PList (l : list pyval)
| PDict (d : list (string * pyval)).

(** A [dict] with [str] keys: bindings in insertion order. *)
Definition dict := list (string * pyval).

(** The exception classes below [requests.exceptions.RequestException]. *)
Inductive request_error : Type :=
| ConnectionError        (* connection refused, DNS failure *)
| ConnectTimeout
| ReadTimeout
| TooManyRedirects
| InvalidJSONError
| JSONDecodeError
| OtherRequestError.

(** The exceptions the modelled code can meet.  Only a [RequestException]
    carries the text that [str(e)] gives. *)
Inductive exn : Type :=
| RequestException (cls : request_error) (msg : string)
| ValueError (msg : string)
| KeyError (key : string)
| TypeError
| AttributeError.

Definition is_request_exception (e : exn) : bool :=
  match e with
  | RequestException _ _ => true
  | _ => false
  end.

(** A computation without effects that returns or raises. *)
Definition result (A : Type) : Type := (exn + A)%type.

(** *** Dictionaries *)

Fixpoint dict_lookup (k : string) (d : dict) : option pyval :=
  match d with
  | [] => None
  | (k', v) :: d' => if String.eqb k k' then Some v else dict_lookup k d'
  end.

Definition dict_mem (k : string) (d : dict) : bool :=
  match dict_lookup k d with
  | Some _ => true
  | None => false
  end.

(** [d[k] = v]: an existing key keeps its place, a new key goes last. *)
Fixpoint dict_set (k : string) (v : pyval) (d : dict) : dict :=
  match d with
  | [] => [(k, v)]
  | (k', v') :: d' =>
      if String.eqb k k' then (k', v) :: d' else (k', v') :: dict_set k v d'
  end.

(** [d.update(items)], also what [**items] does inside a dict display. *)
Definition dict_update (d : dict) (items : dict) : dict :=
  fold_left (fun acc kv => dict_set (fst kv) (snd kv) acc) items d.

(** A dict display [{k1: v1, ..., **more}]: the items are stored left to
    right, a later one replacing an earlier one with the same key. *)
Definition dict_display (items more : dict) : dict :=
  dict_update (dict_update [] items) more.

(** *** Operations on values *)

(** [v.get(key, default)]: only a [dict] has the method. *)
Definition py_get (v : pyval) (key : string) (default : pyval) : result pyval :=
  match v with
  | PDict d =>
      match dict_lookup key d with
      | Some x => inr x
      | None => inr default
      end
  | _ => inl AttributeError
  end.

(** [v[key]] with a [str] key. *)
Definition py_getitem (v : pyval) (key : string) : result pyval :=
  match v with
  | PDict d =>
      match dict_lookup key d with
      | Some x => inr x
      | None => inl (KeyError key)
      end
  | _ => inl TypeError
  end.

Fixpoint chars (s : string) : list pyval :=
  match s with
  | EmptyString => []
  | String c s' => PStr (String c EmptyString) :: chars s'
  end.

(** The items [for x in v] goes through. *)
Definition py_iter (v : pyval) : result (list pyval) :=
  match v with
  | PList l => inr l
  | PDict d => inr (map (fun kv => PStr (fst kv)) d)
  | PStr s => inr (chars s)
  | _ => inl TypeError
  end.

(** [[x[key] for x in items]]: stops at the first item that raises. *)
Fixpoint getitem_each (key : string) (items : list pyval) : result (list pyval) :=
  match items with
  | [] => inr []
  | x :: rest =>
      match py_getitem x key with
      | inl e => inl e
      | inr v =>
          match getitem_each key rest with
          | inl e => inl e
          | inr vs => inr (v :: vs)
          end
      end
  end.

(** Truth value of a value, as [if v] and [v if v else w] test it. *)
Definition truthy (v : pyval) : bool :=
  match v with
  | PNone => false
  | PBool b => b
  | PInt z => negb (z =? 0)
  | PFloat f => negb (PrimFloat.eqb f 0%float)
  | PStr s => negb (String.eqb s "")
  | PList l => match l with [] => false | _ => true end
  | PDict d => match d with [] => false | _ => true end
  end.

(** [x == s] for a [str] [s]: only an equal [str] compares equal. *)
Definition py_eq_str (s : string) (x : pyval) : bool :=
  match x with
  | PStr s' => String.eqb s' s
  | _ => false
  end.

(** [s in items] for a [str] [s] and a list [items]. *)
Definition py_in (s : string) (items : list pyval) : bool :=
  existsb (py_eq_str s) items.

(** ** The outside world *)

Inductive http_method : Type := GET | POST.

(** What [session.get] and [session.post] are called with. *)
Record request : Type := mkRequest {
  req_method : http_method;
  req_url : string;
  req_json : option pyval;
  req_stream : bool;
  req_timeout : option Z
}.

(** What the code reads of a response: [status_code], and the value
    [json()] decodes the body to ([None] when the body is not JSON). *)
Record response : Type := mkResponse {
  status_code : Z;
  body : option pyval
}.

Inductive event : Type :=
| EvRequest (r : request)
| EvPrint (line : string).

(** Events in the order they happened. *)
Definition trace := list event.
Bind Scope list_scope with trace.

(** The network and server: the answer to a request, which may depend on
    what happened before, is a response or a [RequestException].
    [json_decode_error] is the exception [response.json()] raises on a
    body that is not JSON, which depends on the installed [requests]:
    [requests.exceptions.JSONDecodeError], a [RequestException], from
    version 2.27 on, and a plain [ValueError] before. *)
Record runtime : Type := mkRuntime {
  network : trace -> request -> (request_error * string) + response;
  json_decode_error : exn
}.

(** ** The monad of the methods *)

Definition M (A : Type) : Type := trace -> trace * result A.

Definition ret {A} (a : A) : M A := fun t => (t, inr a).

Definition raise {A} (e : exn) : M A := fun t => (t, inl e).

Definition bind {A B} (m : M A) (k : A -> M B) : M B :=
  fun t =>
    match m t with
    | (t', inl e) => (t', inl e)
    | (t', inr a) => k a t'
    end.

Definition lift {A} (r : result A) : M A :=
  match r with
  | inl e => raise e
  | inr a => ret a
  end.

Declare Scope py_scope.
Delimit Scope py_scope with py.
Notation "x <- m ;; k" := (bind m (fun x => k))
  (at level 61, m at next level, right associativity) : py_scope.
Notation "m ;; k" := (bind m (fun _ => k))
  (at level 61, right associativity) : py_scope.
Local Open Scope py_scope.

(** [try: m except requests.exceptions.RequestException as e: h]. *)
Definition try_except_request {A} (m : M A)
    (h : request_error -> string -> M A) : M A :=
  fun t =>
    match m t with
    | (t', inl (RequestException cls msg)) => h cls msg t'
    | other => other
    end.

(** [print(line)]. *)
Definition print (line : string) : M unit :=
  fun t => ((t ++ [EvPrint line])%list, inr tt).

Section Client.

Variable env : runtime.

(** ** [requests.Session] *)

Definition session_request (r : request) : M response :=
  fun t =>
    match network env t r with
    | inl (cls, msg) =>
        ((t ++ [EvRequest r])%list, inl (RequestException cls msg))
    | inr resp => ((t ++ [EvRequest r])%list, inr resp)
    end.

Definition session_get (url : string) (timeout : option Z) : M response :=
  session_request (mkRequest GET url None false timeout).

Definition session_post (url : string) (json : pyval) (stream : bool)
    (timeout : option Z) : M response :=
  session_request (mkRequest POST url (Some json) stream timeout).

(** [response.json()]. *)
Definition response_json (r : response) : M pyval :=
  match body r with
  | Some v => ret v
  | None => raise (json_decode_error env)
  end.

(** ** [class OllamaHelper] *)

(** The [session] attribute has no state the code reads; what the server
    remembers is in [network]. *)
Record OllamaHelper : Type := mkOllamaHelper {
  base_url : string
}.

Definition default_base_url : string := "http://ollama:11434".

Definition OllamaHelper_init (url : string) : OllamaHelper :=
  mkOllamaHelper url.

Definition is_available (self : OllamaHelper) : M bool :=
  try_except_request
    (response <- session_get (base_url self ++ "/api/tags") (Some 5) ;;
     ret (status_code response =? 200))
    (fun _ _ => ret false).

Definition list_models (self : OllamaHelper) : M (list pyval) :=
  try_except_request
    (response <- session_get (base_url self ++ "/api/tags") None ;;
     if status_code response =? 200 then
       js <- response_json response ;;
       models <- lift (py_get js "models" (PList [])) ;;
       items <- lift (py_iter models) ;;
       lift (getitem_each "name" items)
     else ret [])
    (fun _ _ => ret []).

Definition pull_model (self : OllamaHelper) (model : string) : M bool :=
  try_except_request
    (response <- session_post (base_url self ++ "/api/pull")
                   (PDict [("name", PStr model)]) true None ;;
     ret (status_code response =? 200))
    (fun _ _ => ret false).

(** The [data] dictionary of [ask]. *)
Definition ask_data (prompt model : pyval) (kwargs : dict) : dict :=
  dict_display
    [("model", model); ("prompt", prompt); ("stream", PBool false)]
    kwargs.

(** The body of [ask], its parameters bound. *)
Definition ask (self : OllamaHelper) (prompt model : pyval) (kwargs : dict)
    : M pyval :=
  try_except_request
    (let data := ask_data prompt model kwargs in
     response <- session_post (base_url self ++ "/api/generate")
                   (PDict data) false (Some 60) ;;
     if status_code response =? 200 then
       js <- response_json response ;;
       lift (py_get js "response" (PStr ""))
     else ret PNone)
    (fun _ msg =>
       print ("Error asking Ollama: " ++ msg) ;;
       ret PNone).

(** How a call of [self.ask] with positional arguments [args] and keyword
    arguments [kw] binds the parameters of
    [def ask(self, prompt, model="llama2", **kwargs)]: positional
    arguments first, then keywords by name, the keywords left over going
    to [kwargs].  A parameter given twice, a missing [prompt] and a third
    positional argument are [TypeError]s. *)
Definition bind_ask (args : list pyval) (kw : dict)
    : result (pyval * pyval * dict) :=
  let rest :=
    filter (fun kv => negb (String.eqb (fst kv) "prompt"
                            || String.eqb (fst kv) "model")) kw in
  if dict_mem "self" kw then inl TypeError else
  match args with
  | [] =>
      match dict_lookup "prompt" kw with
      | None => inl TypeError
      | Some p =>
          match dict_lookup "model" kw with
          | None => inr (p, PStr "llama2", rest)
          | Some m => inr (p, m, rest)
          end
      end
  | [p] =>
      if dict_mem "prompt" kw then inl TypeError else
      match dict_lookup "model" kw with
      | None => inr (p, PStr "llama2", rest)
      | Some m => inr (p, m, rest)
      end
  | [p; m] =>
      if dict_mem "prompt" kw || dict_mem "model" kw then inl TypeError
      else inr (p, m, rest)
  | _ => inl TypeError
  end.

(** A call of [self.ask] with positional arguments [args] and keyword
    arguments [kw]. *)
Definition call_ask (self : OllamaHelper) (args : list pyval) (kw : dict)
    : M pyval :=
  match bind_ask args kw with
  | inl e => raise e
  | inr (prompt, model, kwargs) => ask self prompt model kwargs
  end.

(** ** The convenience functions *)

Definition setup_ollama (model : string) : M OllamaHelper :=
  let ollama := OllamaHelper_init default_base_url in
  available <- is_available ollama ;;
  if negb available then
    print "❌ Ollama server not available. Please start Ollama first." ;;
    ret ollama
  else
    models <- list_models ollama ;;
    (if negb (py_in model models) then
       print ("📥 Pulling " ++ model ++ " model...") ;;
       pulled <- pull_model ollama model ;;
       if pulled then print ("✅ " ++ model ++ " model ready!")
       else print ("❌ Failed to pull " ++ model ++ " model")
     else
       print ("✅ " ++ model ++ " model already available!")) ;;
    ret ollama.

Definition ask_ai_fallback : string :=
  "Sorry, I couldn't get a response from the AI.".

Definition ask_ai (prompt model : string) : M pyval :=
  let ollama := OllamaHelper_init default_base_url in
  response <- ask ollama (PStr prompt) (PStr model) [] ;;
  ret (if truthy response then response else PStr ask_ai_fallback).

End Client.

(** ** Vocabulary of the statements *)

(** The four requests the methods send. *)
Definition probe_request (self : OllamaHelper) : request :=
  mkRequest GET (base_url self ++ "/api/tags") None false (Some 5).

Definition listing_request (self : OllamaHelper) : request :=
  mkRequest GET (base_url self ++ "/api/tags") None false None.

Definition pull_request (self : OllamaHelper) (model : string) : request :=
  mkRequest POST (base_url self ++ "/api/pull")
    (Some (PDict [("name", PStr model)])) true None.

Definition generate_request (self : OllamaHelper) (data : dict) : request :=
  mkRequest POST (base_url self ++ "/api/generate")
    (Some (PDict data)) false (Some 60).

(** The lines printed in a trace. *)
Fixpoint printed (t : trace) : list string :=
  match t with
  | [] => []
  | EvPrint line :: t' => line :: printed t'
  | EvRequest _ :: t' => printed t'
  end.

(** The requests sent in a trace. *)
Fixpoint requested (t : trace) : list request :=
  match t with
  | [] => []
  | EvRequest r :: t' => r :: requested t'
  | EvPrint _ :: t' => requested t'
  end.

(** The keys of a dictionary are distinct. *)
Definition dict_wf (d : dict) : Prop := NoDup (map fst d).

(** The [name] of an entry of a listing, when the entry is a JSON object
    that has one. *)
Definition entry_name (entry : pyval) : option pyval :=
  match entry with
  | PDict d => dict_lookup "name" d
  | _ => None
  end.

(** The three defaults of the request body of [ask]. *)
Definition ask_defaults (prompt model : pyval) : dict :=
  [("model", model); ("prompt", prompt); ("stream", PBool false)].

(** Merging two mappings, the second one winning: what a key is bound to
    in the merge. *)
Definition merged_lookup (defaults extra : dict) (k : string) : option pyval :=
  match dict_lookup k extra with
  | Some v => Some v
  | None => dict_lookup k defaults
  end.

(** The keywords of a call of [ask] that do not name a parameter. *)
Definition not_named (kv : string * pyval) : bool :=
  negb (String.eqb (fst kv) "prompt" || String.eqb (fst kv) "model").

(** ** Some servers *)

Definition requests_json_error : exn :=
  RequestException JSONDecodeError "Expecting value: line 1 column 1 (char 0)".

(** No server is listening. *)
Definition env_down : runtime :=
  mkRuntime
    (fun _ _ => inl (ConnectionError, "Connection refused"))
    requests_json_error.

(** A server that answers every request with status [code] and an empty
    body. *)
Definition env_status (code : Z) : runtime :=
  mkRuntime (fun _ _ => inr (mkResponse code None)) requests_json_error.

Definition ends_with (suffix s : string) : bool :=
  let n := String.length s in
  let m := String.length suffix in
  String.eqb (substring (n - m) m s) suffix.

(** A server that answers 200 everywhere, with [listing] as the body of
    [/api/tags] and [generated] as the body of [/api/generate]. *)
Definition env_serving (listing generated : pyval) : runtime :=
  mkRuntime
    (fun _ r =>
       if ends_with "/api/tags" (req_url r) then
         inr (mkResponse 200 (Some listing))
       else if ends_with "/api/generate" (req_url r) then
         inr (mkResponse 200 (Some generated))
       else inr (mkResponse 200 None))
    requests_json_error.

(** A server whose status endpoint answers the first request only. *)
Definition env_flaky : runtime :=
  mkRuntime
    (fun t _ =>
       match t with
       | [] => inr (mkResponse 200 (Some (PDict [])))
       | _ => inl (ReadTimeout, "Read timed out.")
       end)
    requests_json_error.

Definition listing_of (names : list string) : pyval :=
  PDict [("models",
          PList (map (fun n => PDict [("name", PStr n)]) names))].

Definition helper : OllamaHelper := OllamaHelper_init default_base_url.

(** ** The prompt builders of [OllamaHelper] *)

(** The three prompt templates, as the f-strings of the source spell them,
    line breaks and indentation included. *)
Definition analyze_data_question_prompt (data_summary question : string)
    : string :=
  "
            I have a dataset with the following characteristics:
            " ++ data_summary ++ "

            Question: " ++ question ++ "

            Please provide specific recommendations for data analysis, including:
            1. Relevant statistical tests
            2. Visualization suggestions
            3. Potential insights to look for
            4. Python code examples if applicable

            Keep the response focused and practical.
            ".

Definition analyze_data_plain_prompt (data_summary : string) : string :=
  "
            I have a dataset with the following characteristics:
            " ++ data_summary ++ "

            Please suggest:
            1. Appropriate exploratory data analysis steps
            2. Statistical tests to consider
            3. Visualization techniques
            4. Potential research questions
            5. Next steps for analysis

            Provide practical, actionable advice.
            ".

Definition code_review_prompt (code context : string) : string :=
  "
        Please review this Python data science code:

        Context: " ++ context ++ "

        Code:
        ```python
        " ++ code ++ "
        ```

        Please provide:
        1. Code quality feedback
        2. Performance suggestions
        3. Best practices recommendations
        4. Potential bugs or issues
        5. Alternative approaches

        Focus on practical improvements.
        ".

Section Prompts.

Variable env : runtime.

(** [question] is [None] by default; [if question] also sends an empty
    question to the second template. *)
Definition analyze_data (self : OllamaHelper) (data_summary : string)
    (question : option string) : M pyval :=
  let prompt :=
    match question with
    | Some q =>
        if truthy (PStr q) then analyze_data_question_prompt data_summary q
        else analyze_data_plain_prompt data_summary
    | None => analyze_data_plain_prompt data_summary
    end in
  call_ask env self [PStr prompt] [("model", PStr "llama2")].

Definition code_review (self : OllamaHelper) (code context : string)
    : M pyval :=
  let prompt := code_review_prompt code context in
  call_ask env self [PStr prompt] [("model", PStr "llama2")].

End Prompts.

(** ** [check_dependencies] of [main.py] *)

(** What [__import__(package)] does: it returns, raises [ImportError], or
    raises something else. *)
Inductive import_outcome : Type :=
| Imported
| RaisesImportError
| RaisesOther (e : exn).

Definition required_packages : list string :=
  ["pandas"; "numpy"; "matplotlib"; "seaborn"; "openpyxl"; "requests"].

(** The loop over the packages: an [ImportError] appends the package to
    [missing_packages], any other exception leaves the function. *)
Fixpoint import_each (imports : string -> import_outcome)
    (packages missing_packages : list string) : result (list string) :=
  match packages with
  | [] => inr missing_packages
  | package :: rest =>
      match imports package with
      | Imported => import_each imports rest missing_packages
      | RaisesImportError =>
          import_each imports rest (missing_packages ++ [package])%list
      | RaisesOther e => inl e
      end
  end.

Definition check_dependencies (imports : string -> import_outcome) : M bool :=
  missing_packages <- lift (import_each imports required_packages []) ;;
  match missing_packages with
  | _ :: _ =>
      print ("❌ Missing packages: " ++ String.concat ", " missing_packages) ;;
      print ("Run: pip install " ++ String.concat " " missing_packages) ;;
      ret false
  | [] =>
      print "✅ All required packages installed" ;;
      ret true
  end.

(** ** More vocabulary *)

(** [part] occurs in [whole]. *)
Definition occurs_in (part whole : string) : Prop :=
  exists before after, whole = before ++ part ++ after.

(** The body [ask] sends when no extra parameter is given. *)
Definition plain_body (prompt model : string) : dict :=
  [("model", PStr model); ("prompt", PStr prompt); ("stream", PBool false)].

(** The prompt [analyze_data] builds. *)
Definition analyze_data_prompt (data_summary : string)
    (question : option string) : string :=
  match question with
  | Some q =>
      if truthy (PStr q) then analyze_data_question_prompt data_summary q
      else analyze_data_plain_prompt data_summary
  | None => analyze_data_plain_prompt data_summary
  end.

(** A server on which [/api/generate] times out and everything else is
    answered with an empty listing. *)
Definition env_generate_timeout : runtime :=
  mkRuntime
    (fun _ r =>
       if ends_with "/api/generate" (req_url r) then
         inl (ReadTimeout, "Read timed out.")
       else inr (mkResponse 200 (Some (PDict [("models", PList [])]))))
    (RequestException JSONDecodeError
       "Expecting value: line 1 column 1 (char 0)").

(** The package can be imported. *)
Definition importable (imports : string -> import_outcome) (package : string)
    : bool :=
  match imports package with
  | Imported => true
  | _ => false
  end.

(** An import environment in which exactly the packages of [absent] raise
    [ImportError]. *)
Definition imports_without (absent : list string) (package : string)
    : import_outcome :=
  if existsb (String.eqb package) absent then RaisesImportError else Imported.

(** An import environment in which [broken] raises at import time. *)
Definition imports_broken (broken : string) (package : string)
    : import_outcome :=
  if String.eqb package broken then RaisesOther (ValueError "numpy.dtype size changed")
  else Imported.

(** A server that answers 200 with a body that is not JSON, under a
    [requests] older than 2.27. *)
Definition env_old_requests : runtime :=
  mkRuntime (fun _ _ => inr (mkResponse 200 None))
    (ValueError "Expecting value: line 1 column 1 (char 0)").

(** A server that lists [names] and answers 500 to everything but
    [/api/tags]. *)
Definition env_pull_refused (names : list string) : runtime :=
  mkRuntime
    (fun _ r =>
       if ends_with "/api/tags" (req_url r) then
         inr (mkResponse 200 (Some (listing_of names)))
       else inr (mkResponse 500 None))
    requests_json_error.

(** ** How the methods run *)

Ltac unfold_method :=
  unfold is_available, list_models, pull_model, ask, try_except_request,
    bind, ret, raise, print, session_get, session_post, session_request,
    probe_request, listing_request, pull_request, generate_request.

Lemma printed_app (t u : trace) :
  printed (t ++ u) = (printed t ++ printed u)%list.
Proof.
  induction t as [| [r | line] t IH]; simpl; [reflexivity | exact IH |].
  now rewrite IH.
Qed.

Lemma requested_app (t u : trace) :
  requested (t ++ u) = (requested t ++ requested u)%list.
Proof.
  induction t as [| [r | line] t IH]; simpl; [reflexivity | | exact IH].
  now rewrite IH.
Qed.

(** [is_available] sends the probe and answers with a boolean. *)
Lemma is_available_run (env : runtime) (self : OllamaHelper) (t : trace) :
  is_available env self t =
  ((t ++ [EvRequest (probe_request self)])%list,
   inr match network env t (probe_request self) with
       | inr r => status_code r =? 200
       | inl _ => false
       end).
Proof.
  unfold_method.
  destruct (network env t _) as [[cls msg] | r]; reflexivity.
Qed.

(** [pull_model] sends the pull request and answers with a boolean. *)
Lemma pull_model_run (env : runtime) (self : OllamaHelper) (model : string)
    (t : trace) :
  pull_model env self model t =
  ((t ++ [EvRequest (pull_request self model)])%list,
   inr match network env t (pull_request self model) with
       | inr r => status_code r =? 200
       | inl _ => false
       end).
Proof.
  unfold_method.
  destruct (network env t _) as [[cls msg] | r]; reflexivity.
Qed.

(** [list_models] sends the listing request and nothing else. *)
Lemma list_models_trace (env : runtime) (self : OllamaHelper) (t : trace) :
  fst (list_models env self t) =
  (t ++ [EvRequest (listing_request self)])%list.
Proof.
  unfold_method. unfold response_json, lift.
  destruct (network env t _) as [[cls msg] | r]; [reflexivity |].
  destruct (status_code r =? 200); [| reflexivity].
  destruct (body r) as [js |].
  - unfold ret, raise.
    destruct (py_get js "models" (PList [])) as [e | models];
      [destruct e; reflexivity |].
    destruct (py_iter models) as [e | items]; [destruct e; reflexivity |].
    destruct (getitem_each "name" items) as [e | names];
      [destruct e; reflexivity | reflexivity].
  - unfold raise. destruct (json_decode_error env); reflexivity.
Qed.

(** [list_models] on a network failure. *)
Lemma list_models_unreachable (env : runtime) (self : OllamaHelper)
    (t : trace) (cls : request_error) (msg : string) :
  network env t (listing_request self) = inl (cls, msg) ->
  list_models env self t =
  ((t ++ [EvRequest (listing_request self)])%list, inr []).
Proof.
  intros H. unfold_method. unfold listing_request in H. now rewrite H.
Qed.

(** [list_models] on a status other than 200. *)
Lemma list_models_unsuccessful (env : runtime) (self : OllamaHelper)
    (t : trace) (r : response) :
  network env t (listing_request self) = inr r ->
  status_code r <> 200 ->
  list_models env self t =
  ((t ++ [EvRequest (listing_request self)])%list, inr []).
Proof.
  intros H Hs. unfold_method. unfold listing_request in H. rewrite H.
  apply Z.eqb_neq in Hs. now rewrite Hs.
Qed.

(** The comprehension over well-formed entries yields their names. *)
Lemma getitem_each_names (items names : list pyval) :
  map entry_name items = map Some names ->
  getitem_each "name" items = inr names.
Proof.
  revert names.
  induction items as [| x items IH]; intros [| n names] H;
    simpl in H; try discriminate; [reflexivity |].
  injection H as Hx Hrest.
  simpl. rewrite (IH _ Hrest).
  destruct x; simpl in Hx; try discriminate.
  simpl. now rewrite Hx.
Qed.

(** [list_models] on a 200 answer whose body is a listing. *)
Lemma list_models_listing (env : runtime) (self : OllamaHelper) (t : trace)
    (r : response) (d : dict) (models names : list pyval) :
  network env t (listing_request self) = inr r ->
  status_code r = 200 ->
  body r = Some (PDict d) ->
  py_get (PDict d) "models" (PList []) = inr (PList models) ->
  map entry_name models = map Some names ->
  list_models env self t =
  ((t ++ [EvRequest (listing_request self)])%list, inr names).
Proof.
  intros H Hs Hb Hm Hn. unfold_method. unfold listing_request in H.
  rewrite H, Hs. simpl. unfold response_json. rewrite Hb.
  unfold ret, lift. rewrite Hm. unfold ret. simpl.
  rewrite (getitem_each_names _ _ Hn). reflexivity.
Qed.

(** ** The four primitives *)

(** C6: [is_available] sends one GET to [/api/tags] with a timeout of 5
    and returns a boolean without raising, whatever the network does: the
    boolean is [true] exactly when a response came back with status 200,
    and [false] on every network exception. *)
Theorem is_available_spec (env : runtime) (self : OllamaHelper) (t : trace) :
  exists b : bool,
    is_available env self t =
      ((t ++ [EvRequest (probe_request self)])%list, inr b)
    /\ req_method (probe_request self) = GET
    /\ req_url (probe_request self) = base_url self ++ "/api/tags"
    /\ req_timeout (probe_request self) = Some 5
    /\ (b = true <->
        exists r, network env t (probe_request self) = inr r
                  /\ status_code r = 200)
    /\ (forall cls msg,
          network env t (probe_request self) = inl (cls, msg) -> b = false).
Proof.
  rewrite is_available_run.
  eexists; split; [reflexivity |].
  repeat split.
  - destruct (network env t _) as [[cls msg] | r]; [discriminate |].
    intros H. exists r. split; [reflexivity | now apply Z.eqb_eq].
  - intros [r [Hr Hs]]. rewrite Hr. now apply Z.eqb_eq.
  - intros cls msg H. now rewrite H.
Qed.

(** C7: [pull_model] sends one POST to [/api/pull] with the JSON body
    [{"name": model}] and [stream=True], reads nothing more of the answer,
    and returns a boolean without raising: [true] exactly when the initial
    response has status 200, [false] on every network exception. *)
Theorem pull_model_spec (env : runtime) (self : OllamaHelper)
    (model : string) (t : trace) :
  exists b : bool,
    pull_model env self model t =
      ((t ++ [EvRequest (pull_request self model)])%list, inr b)
    /\ pull_request self model =
         mkRequest POST (base_url self ++ "/api/pull")
           (Some (PDict [("name", PStr model)])) true None
    /\ (b = true <->
        exists r, network env t (pull_request self model) = inr r
                  /\ status_code r = 200)
    /\ (forall cls msg,
          network env t (pull_request self model) = inl (cls, msg) ->
          b = false).
Proof.
  rewrite pull_model_run.
  eexists; split; [reflexivity |].
  repeat split.
  - destruct (network env t _) as [[cls msg] | r]; [discriminate |].
    intros H. exists r. split; [reflexivity | now apply Z.eqb_eq].
  - intros [r [Hr Hs]]. rewrite Hr. now apply Z.eqb_eq.
  - intros cls msg H. now rewrite H.
Qed.

(** The probe against a dead server, a server that answers 503 and a
    server that answers 200. *)
Lemma is_available_spec_witness :
  snd (is_available env_down helper []) = inr false
  /\ snd (is_available (env_status 503) helper []) = inr false
  /\ snd (is_available (env_status 200) helper []) = inr true.
Proof.
  split; [| split].
  - destruct (is_available_spec env_down helper [])
      as [b [Hrun [_ [_ [_ [_ Hdown]]]]]].
    rewrite Hrun. simpl. f_equal.
    exact (Hdown ConnectionError "Connection refused" eq_refl).
  - destruct (is_available_spec (env_status 503) helper [])
      as [b [Hrun [_ [_ [_ [[Hup _] _]]]]]].
    rewrite Hrun. simpl. f_equal.
    destruct b; [| reflexivity].
    destruct (Hup eq_refl) as [r [Hr Hs]].
    injection Hr as <-. discriminate Hs.
  - destruct (is_available_spec (env_status 200) helper [])
      as [b [Hrun [_ [_ [_ [[_ Hup] _]]]]]].
    rewrite Hrun. simpl. f_equal.
    apply Hup. exists (mkResponse 200 None). split; reflexivity.
Defined.

(** A pull request against a dead server and against one that accepts
    it. *)
Lemma pull_model_spec_witness :
  snd (pull_model env_flaky helper "llama2" []) = inr true
  /\ pull_model env_down helper "llama2" [] =
       ([EvRequest (pull_request helper "llama2")], inr false).
Proof.
  split.
  - destruct (pull_model_spec env_flaky helper "llama2" [])
      as [b [Hrun [_ [[_ Hup] _]]]].
    rewrite Hrun. simpl. f_equal.
    apply Hup. exists (mkResponse 200 (Some (PDict []))). split; reflexivity.
  - destruct (pull_model_spec env_down helper "llama2" [])
      as [b [Hrun [_ [_ Hdown]]]].
    rewrite Hrun. simpl. do 2 f_equal.
    exact (Hdown ConnectionError "Connection refused" eq_refl).
Defined.

(** C4, as stated, fails on some 200 answers: a body that is JSON but
    not an object makes [ask] raise [AttributeError], and a body that is not
    JSON makes it print the diagnostic and return [None], not the empty
    string. *)
Lemma ask_200_without_object :
  ask (env_serving (listing_of []) (PList [])) helper
    (PStr "hello") (PStr "llama2") [] [] =
    ([EvRequest
        (generate_request helper (ask_data (PStr "hello") (PStr "llama2") []))],
     inl AttributeError)
  /\ ask (env_status 200) helper (PStr "hello") (PStr "llama2") [] [] =
       ([EvRequest
           (generate_request helper
              (ask_data (PStr "hello") (PStr "llama2") []));
         EvPrint
           "Error asking Ollama: Expecting value: line 1 column 1 (char 0)"],
        inr PNone).
Proof. split; reflexivity. Qed.

(** C4, amended: when the server answers the generate request, [ask]
    returns [None] on a status other than 200, and on status 200 with a JSON
    object as body it returns the object's [response] field, or the empty
    string when the object has no such field.  On status 200 with a JSON
    body that is not an object it raises [AttributeError]; on status 200
    with a body that is not JSON the exception of [json()] decides: a
    [RequestException] is caught, its text printed and [None] returned, any
    other exception reaches the caller. *)
Theorem ask_response (env : runtime) (self : OllamaHelper)
    (prompt model : pyval) (kwargs : dict) (t : trace) (r : response) :
  network env t (generate_request self (ask_data prompt model kwargs)) = inr r ->
  (status_code r <> 200 ->
   ask env self prompt model kwargs t =
     ((t ++ [EvRequest (generate_request self (ask_data prompt model kwargs))])%list,
      inr PNone))
  /\ (forall d : dict,
        status_code r = 200 ->
        body r = Some (PDict d) ->
        ask env self prompt model kwargs t =
          ((t ++ [EvRequest (generate_request self (ask_data prompt model kwargs))])%list,
           inr match dict_lookup "response" d with
               | Some v => v
               | None => PStr ""
               end))
  /\ (forall js : pyval,
        status_code r = 200 ->
        body r = Some js ->
        (forall d, js <> PDict d) ->
        ask env self prompt model kwargs t =
          ((t ++ [EvRequest (generate_request self (ask_data prompt model kwargs))])%list,
           inl AttributeError))
  /\ (status_code r = 200 ->
      body r = None ->
      ask env self prompt model kwargs t =
        match json_decode_error env with
        | RequestException _ msg =>
            ((t ++ [EvRequest (generate_request self (ask_data prompt model kwargs));
                    EvPrint ("Error asking Ollama: " ++ msg)])%list,
             inr PNone)
        | e =>
            ((t ++ [EvRequest (generate_request self (ask_data prompt model kwargs))])%list,
             inl e)
        end).
Proof.
  intros H. unfold generate_request in H.
  split; [| split; [| split]].
  - intros Hs. unfold_method. rewrite H.
    apply Z.eqb_neq in Hs. now rewrite Hs.
  - intros d Hs Hb. unfold_method. rewrite H, Hs. simpl.
    unfold response_json. rewrite Hb. unfold ret, lift. simpl.
    destruct (dict_lookup "response" d); reflexivity.
  - intros js Hs Hb Hjs. unfold_method. rewrite H, Hs. simpl.
    unfold response_json. rewrite Hb. unfold ret, lift.
    destruct js; try reflexivity.
    exfalso. now apply (Hjs d).
  - intros Hs Hb. unfold_method. rewrite H, Hs. simpl.
    unfold response_json. rewrite Hb. unfold raise.
    destruct (json_decode_error env); try reflexivity.
    now rewrite <- app_assoc.
Qed.

(** The end-to-end scenario of the specification, a 200 answer without
    [response] field, a 404 answer, and a 200 answer whose body is a JSON
    array. *)
Lemma ask_response_witness :
  ask (env_serving (listing_of ["llama2"])
         (PDict [("response", PStr "try a histogram")]))
      helper (PStr "summarize this dataset") (PStr "llama2") [] [] =
    ([EvRequest
        (generate_request helper
           (ask_data (PStr "summarize this dataset") (PStr "llama2") []))],
     inr (PStr "try a histogram"))
  /\ snd (ask (env_serving (listing_of []) (PDict [("done", PBool true)]))
            helper (PStr "hello") (PStr "llama2") [] []) = inr (PStr "")
  /\ snd (ask (env_status 404) helper (PStr "hello") (PStr "llama2") [] [])
     = inr PNone
  /\ snd (ask (env_serving (listing_of []) (PList [PStr "try a histogram"]))
            helper (PStr "hello") (PStr "llama2") [] []) = inl AttributeError.
Proof.
  split; [| split; [| split]].
  - exact (proj1 (proj2 (ask_response
                    (env_serving (listing_of ["llama2"])
                       (PDict [("response", PStr "try a histogram")]))
                    helper (PStr "summarize this dataset") (PStr "llama2")
                    [] [] _ eq_refl))
             [("response", PStr "try a histogram")] eq_refl eq_refl).
  - exact (f_equal snd
             (proj1 (proj2 (ask_response
                       (env_serving (listing_of []) (PDict [("done", PBool true)]))
                       helper (PStr "hello") (PStr "llama2") [] [] _ eq_refl))
                [("done", PBool true)] eq_refl eq_refl)).
  - refine (f_equal snd
              (proj1 (ask_response (env_status 404) helper (PStr "hello")
                        (PStr "llama2") [] [] _ eq_refl) _)).
    simpl. lia.
  - refine (f_equal snd
              (proj1 (proj2 (proj2 (ask_response
                        (env_serving (listing_of []) (PList [PStr "try a histogram"]))
                        helper (PStr "hello") (PStr "llama2") [] [] _ eq_refl)))
                 (PList [PStr "try a histogram"]) eq_refl eq_refl _)).
    intros d. discriminate.
Defined.

(** C5: on a network failure [ask] prints a line that carries the text of
    the exception and returns [None] without raising; the three other
    primitives never print anything, whatever happens. *)
Theorem ask_failure_prints (env : runtime) (self : OllamaHelper)
    (prompt model : pyval) (kwargs : dict) (t : trace)
    (cls : request_error) (msg : string) :
  network env t (generate_request self (ask_data prompt model kwargs))
    = inl (cls, msg) ->
  ask env self prompt model kwargs t =
    ((t ++ [EvRequest (generate_request self (ask_data prompt model kwargs));
            EvPrint ("Error asking Ollama: " ++ msg)])%list,
     inr PNone)
  /\ (forall (env' : runtime) (o : OllamaHelper) (name : string) (u : trace),
        printed (fst (is_available env' o u)) = printed u
        /\ printed (fst (list_models env' o u)) = printed u
        /\ printed (fst (pull_model env' o name u)) = printed u).
Proof.
  intros H. split.
  - unfold generate_request in H. unfold_method. rewrite H.
    now rewrite <- app_assoc.
  - intros env' o name u.
    rewrite is_available_run, list_models_trace, pull_model_run.
    simpl. rewrite !printed_app. simpl. now rewrite !app_nil_r.
Qed.

Lemma ask_failure_prints_witness :
  ask env_down helper (PStr "hello") (PStr "llama2") [] [] =
    ([EvRequest (generate_request helper
                   (ask_data (PStr "hello") (PStr "llama2") []));
      EvPrint "Error asking Ollama: Connection refused"],
     inr PNone).
Proof.
  exact (proj1 (ask_failure_prints env_down helper (PStr "hello")
                  (PStr "llama2") [] [] ConnectionError "Connection refused"
                  eq_refl)).
Defined.

(** ** [list_models] *)

(** Closes a goal [snd run = inl e -> is_request_exception e = false] once
    the run is a value. *)
Ltac escaped_exn :=
  let H := fresh in
  intros H; simpl in H; try discriminate H;
  injection H as <-; reflexivity.

(** C2: on a 200 answer whose body is a JSON object with a [models] array
    of objects that each have a [name], [list_models] returns the names, one
    per entry and in the order of the array, duplicates included. *)
Theorem list_models_order (env : runtime) (self : OllamaHelper) (t : trace)
    (r : response) (d : dict) (models names : list pyval) :
  network env t (listing_request self) = inr r ->
  status_code r = 200 ->
  body r = Some (PDict d) ->
  dict_lookup "models" d = Some (PList models) ->
  map entry_name models = map Some names ->
  list_models env self t =
    ((t ++ [EvRequest (listing_request self)])%list, inr names).
Proof.
  intros H Hs Hb Hm Hn.
  apply (list_models_listing env self t r d models names); auto.
  simpl. now rewrite Hm.
Qed.

Lemma list_models_order_witness :
  list_models (env_serving (listing_of ["a"; "b"; "a"]) PNone) helper [] =
    ([EvRequest (listing_request helper)],
     inr [PStr "a"; PStr "b"; PStr "a"]).
Proof.
  exact (list_models_order (env_serving (listing_of ["a"; "b"; "a"]) PNone)
           helper [] _ _ _ [PStr "a"; PStr "b"; PStr "a"]
           eq_refl eq_refl eq_refl eq_refl eq_refl).
Defined.

(** C3, as stated, fails: a 200 listing with an entry that has no [name]
    makes [list_models] raise [KeyError], and a 200 answer whose body is a
    JSON array makes it raise [AttributeError]. *)
Lemma list_models_raises :
  list_models
    (env_serving (PDict [("models", PList [PDict [("model", PStr "llama2")]])])
       PNone)
    helper [] =
    ([EvRequest (listing_request helper)], inl (KeyError "name"))
  /\ list_models (env_serving (PList []) PNone) helper [] =
       ([EvRequest (listing_request helper)], inl AttributeError).
Proof. split; reflexivity. Qed.

(** C3, amended: [list_models] returns the empty list on every network
    exception, on every status other than 200, and on a 200 answer whose
    body makes [json()] raise a [RequestException]; it returns normally on
    a 200 answer that is a well-formed listing; and an exception that does
    reach the caller is never a [RequestException] and comes from a 200
    answer. *)
Theorem list_models_degrades (env : runtime) (self : OllamaHelper) (t : trace) :
  (forall cls msg,
     network env t (listing_request self) = inl (cls, msg) ->
     snd (list_models env self t) = inr [])
  /\ (forall r,
        network env t (listing_request self) = inr r ->
        status_code r <> 200 ->
        snd (list_models env self t) = inr [])
  /\ (forall r,
        network env t (listing_request self) = inr r ->
        status_code r = 200 ->
        body r = None ->
        is_request_exception (json_decode_error env) = true ->
        snd (list_models env self t) = inr [])
  /\ (forall r d models names,
        network env t (listing_request self) = inr r ->
        status_code r = 200 ->
        body r = Some (PDict d) ->
        py_get (PDict d) "models" (PList []) = inr (PList models) ->
        map entry_name models = map Some names ->
        snd (list_models env self t) = inr names)
  /\ (forall e,
        snd (list_models env self t) = inl e ->
        is_request_exception e = false
        /\ exists r, network env t (listing_request self) = inr r
                     /\ status_code r = 200).
Proof.
  repeat split.
  - intros cls msg H. now rewrite (list_models_unreachable _ _ _ _ _ H).
  - intros r H Hs. now rewrite (list_models_unsuccessful _ _ _ _ H Hs).
  - intros r H Hs Hb He. unfold_method. unfold listing_request in H.
    rewrite H, Hs. simpl. unfold response_json. rewrite Hb. unfold raise.
    destruct (json_decode_error env); try discriminate. reflexivity.
  - intros r d models names H Hs Hb Hm Hn.
    now rewrite (list_models_listing _ _ _ _ _ _ _ H Hs Hb Hm Hn).
  - revert H. unfold_method. unfold response_json, lift.
    destruct (network env t _) as [[cls msg] | r]; [discriminate |].
    destruct (status_code r =? 200); [| discriminate].
    destruct (body r) as [js |]; unfold ret, raise.
    + destruct (py_get js "models" (PList [])) as [e1 | models];
        [destruct e1; escaped_exn |].
      destruct (py_iter models) as [e1 | items];
        [destruct e1; escaped_exn |].
      destruct (getitem_each "name" items) as [e1 | names];
        [destruct e1; escaped_exn | discriminate].
    + destruct (json_decode_error env); escaped_exn.
  - revert H. unfold_method. unfold response_json, lift.
    destruct (network env t _) as [[cls msg] | r]; [discriminate |].
    destruct (status_code r =? 200) eqn:Hs; [| discriminate].
    intros _. exists r. split; [reflexivity | now apply Z.eqb_eq].
Qed.

(** A dead server and a server that answers 500 both give the empty
    list. *)
Lemma list_models_degrades_witness :
  snd (list_models env_down helper []) = inr []
  /\ snd (list_models (env_status 500) helper []) = inr []
  /\ snd (list_models (env_status 200) helper []) = inr [].
Proof.
  split; [| split].
  - exact (proj1 (list_models_degrades env_down helper [])
             ConnectionError "Connection refused" eq_refl).
  - refine (proj1 (proj2 (list_models_degrades (env_status 500) helper []))
              (mkResponse 500 None) eq_refl _).
    simpl. lia.
  - exact (proj1 (proj2 (proj2 (list_models_degrades (env_status 200) helper [])))
              (mkResponse 200 None) eq_refl eq_refl eq_refl eq_refl).
Defined.

(** ** The request body of [ask] *)

Lemma dict_lookup_absent (k : string) (d : dict) :
  ~ In k (map fst d) -> dict_lookup k d = None.
Proof.
  induction d as [| [k' v] d IH]; simpl; [reflexivity |].
  intros H. destruct (String.eqb_spec k k') as [-> | Hk].
  - exfalso. apply H. now left.
  - apply IH. intros Hin. apply H. now right.
Qed.

Lemma dict_lookup_set (k k' : string) (v : pyval) (d : dict) :
  dict_lookup k (dict_set k' v d) =
  if String.eqb k k' then Some v else dict_lookup k d.
Proof.
  induction d as [| [k0 v0] d IH]; simpl.
  - reflexivity.
  - destruct (String.eqb_spec k' k0) as [-> | Hk0]; simpl.
    + destruct (String.eqb k k0); reflexivity.
    + rewrite IH. destruct (String.eqb_spec k k0) as [-> | Hk].
      * destruct (String.eqb_spec k0 k'); [congruence | reflexivity].
      * reflexivity.
Qed.

(** After [d.update(items)] a key is bound as in [items] when it occurs
    there, and as in [d] otherwise. *)
Lemma dict_lookup_update (k : string) (items d : dict) :
  dict_wf items ->
  dict_lookup k (dict_update d items) = merged_lookup d items k.
Proof.
  unfold dict_wf, dict_update, merged_lookup.
  revert d. induction items as [| [k1 v1] items IH]; intros d Hwf; simpl.
  - reflexivity.
  - inversion Hwf as [| ? ? Hnotin Hrest]; subst.
    rewrite (IH _ Hrest), dict_lookup_set.
    destruct (String.eqb_spec k k1) as [-> | Hk].
    + now rewrite (dict_lookup_absent _ _ Hnotin).
    + reflexivity.
Qed.

Lemma ask_data_lookup (prompt model : pyval) (kwargs : dict) (k : string) :
  dict_wf kwargs ->
  dict_lookup k (ask_data prompt model kwargs) =
  merged_lookup (ask_defaults prompt model) kwargs k.
Proof.
  intros Hwf. unfold ask_data, dict_display.
  now rewrite (dict_lookup_update _ _ _ Hwf).
Qed.

Lemma dict_lookup_filter (k : string) (f : string * pyval -> bool) (d : dict) :
  (forall v, f (k, v) = false) ->
  dict_lookup k (filter f d) = None.
Proof.
  intros Hf. induction d as [| [k' v] d IH]; simpl; [reflexivity |].
  destruct (f (k', v)) eqn:Hkv; [| exact IH].
  simpl. destruct (String.eqb_spec k k') as [-> | _]; [| exact IH].
  now rewrite Hf in Hkv.
Qed.

Lemma dict_lookup_filter_keep (k : string) (f : string * pyval -> bool)
    (d : dict) :
  (forall v, f (k, v) = true) ->
  dict_lookup k (filter f d) = dict_lookup k d.
Proof.
  intros Hf. induction d as [| [k' v] d IH]; simpl; [reflexivity |].
  destruct (String.eqb_spec k k') as [-> | Hk].
  - rewrite Hf. simpl. now rewrite String.eqb_refl.
  - destruct (f (k', v)); [| exact IH].
    simpl. destruct (String.eqb_spec k k'); [congruence | exact IH].
Qed.

Lemma dict_wf_filter (f : string * pyval -> bool) (d : dict) :
  dict_wf d -> dict_wf (filter f d).
Proof.
  unfold dict_wf. induction d as [| [k v] d IH]; simpl; [auto |].
  intros Hwf. inversion Hwf as [| ? ? Hnotin Hrest]; subst.
  destruct (f (k, v)); [| auto].
  simpl. constructor; [| auto].
  intros Hin. apply Hnotin.
  apply in_map_iff in Hin. destruct Hin as [kv [Hfst Hin]].
  apply filter_In in Hin. apply in_map_iff. exists kv. tauto.
Qed.

(** The keywords left over for [kwargs] are those not named [prompt] or
    [model]. *)
Lemma bind_ask_kwargs (args : list pyval) (kw : dict)
    (prompt model : pyval) (kwargs : dict) :
  bind_ask args kw = inr (prompt, model, kwargs) ->
  kwargs = filter not_named kw.
Proof.
  unfold bind_ask. fold not_named.
  destruct (dict_mem "self" kw); [discriminate |].
  destruct args as [| p [| m [| x rest]]]; try discriminate.
  - destruct (dict_lookup "prompt" kw); [| discriminate].
    destruct (dict_lookup "model" kw); intros H; now injection H.
  - destruct (dict_mem "prompt" kw); [discriminate |].
    destruct (dict_lookup "model" kw); intros H; now injection H.
  - destruct (dict_mem "prompt" kw || dict_mem "model" kw); [discriminate |].
    intros H; now injection H.
Qed.

(** [ask] sends exactly one request, with [data] as its body. *)
Lemma ask_requested (env : runtime) (self : OllamaHelper)
    (prompt model : pyval) (kwargs : dict) (t : trace) :
  requested (fst (ask env self prompt model kwargs t)) =
  (requested t ++ [generate_request self (ask_data prompt model kwargs)])%list.
Proof.
  unfold_method. unfold response_json, lift.
  destruct (network env t _) as [[cls msg] | r].
  - simpl. rewrite !requested_app. simpl. now rewrite app_nil_r.
  - destruct (status_code r =? 200);
      [| simpl; now rewrite requested_app].
    destruct (body r) as [js |]; unfold ret, raise.
    + destruct (py_get js "response" (PStr "")) as [e | v];
        [destruct e |]; simpl; rewrite ?requested_app; simpl;
        now rewrite ?app_nil_r.
    + destruct (json_decode_error env); simpl; rewrite ?requested_app; simpl;
        now rewrite ?app_nil_r.
Qed.

(** C1, as stated, fails for the keys [model] and [prompt]: they name
    parameters of [ask], so given next to a model name or a prompt they are
    rejected with [TypeError] before any request body is built. *)
Lemma ask_named_keyword_rejected :
  call_ask (env_serving (listing_of ["llama2"]) (PDict [("response", PStr "ok")]))
    helper [PStr "hi"; PStr "llama2"] [("model", PStr "mistral")] [] =
    ([], inl TypeError)
  /\ call_ask (env_serving (listing_of ["llama2"]) (PDict [("response", PStr "ok")]))
       helper [PStr "hi"] [("prompt", PStr "bye")] [] =
       ([], inl TypeError).
Proof. split; reflexivity. Qed.

(** C1, amended: when a call of [ask] binds its parameters, the extra
    parameters are the keywords other than [prompt] and [model], the one
    request sent carries [data] as its body, and [data] is the merge of
    the three defaults with the extra parameters, an extra parameter
    winning over a default with the same key.  So [stream] is what the
    caller passed, [False] when the caller passed none, while [model] and
    [prompt] are always the bound parameters. *)
Theorem ask_body_merge (env : runtime) (self : OllamaHelper)
    (args : list pyval) (kw : dict) (prompt model : pyval) (kwargs : dict)
    (t : trace) :
  dict_wf kw ->
  bind_ask args kw = inr (prompt, model, kwargs) ->
  requested (fst (call_ask env self args kw t)) =
    (requested t ++ [generate_request self (ask_data prompt model kwargs)])%list
  /\ (forall k,
        dict_lookup k (ask_data prompt model kwargs) =
        merged_lookup (ask_defaults prompt model) kwargs k)
  /\ (forall k, k <> "prompt" -> k <> "model" ->
        dict_lookup k kwargs = dict_lookup k kw)
  /\ dict_lookup "model" (ask_data prompt model kwargs) = Some model
  /\ dict_lookup "prompt" (ask_data prompt model kwargs) = Some prompt
  /\ dict_lookup "stream" (ask_data prompt model kwargs) =
       match dict_lookup "stream" kw with
       | Some v => Some v
       | None => Some (PBool false)
       end.
Proof.
  intros Hwf Hbind.
  pose proof (bind_ask_kwargs _ _ _ _ _ Hbind) as Hkw.
  assert (Hwf' : dict_wf kwargs) by (subst kwargs; now apply dict_wf_filter).
  assert (Hother : forall k, k <> "prompt" -> k <> "model" ->
                     dict_lookup k kwargs = dict_lookup k kw).
  { intros k Hp Hm. subst kwargs. apply dict_lookup_filter_keep.
    intros v. unfold not_named. simpl.
    destruct (String.eqb_spec k "prompt"); [congruence |].
    destruct (String.eqb_spec k "model"); [congruence | reflexivity]. }
  split; [| split; [| split; [| split; [| split]]]].
  - unfold call_ask. rewrite Hbind. apply ask_requested.
  - intros k. now apply ask_data_lookup.
  - exact Hother.
  - rewrite (ask_data_lookup _ _ _ _ Hwf'). unfold merged_lookup.
    subst kwargs. now rewrite dict_lookup_filter.
  - rewrite (ask_data_lookup _ _ _ _ Hwf'). unfold merged_lookup.
    subst kwargs. now rewrite dict_lookup_filter.
  - rewrite (ask_data_lookup _ _ _ _ Hwf'). unfold merged_lookup.
    rewrite Hother by discriminate.
    destruct (dict_lookup "stream" kw); reflexivity.
Qed.

(** Passing [stream=True] gives a body with ["stream": true]. *)
Lemma ask_body_merge_witness :
  dict_lookup "stream"
    (ask_data (PStr "hi") (PStr "llama2")
       [("stream", PBool true); ("temperature", PInt 0)])
  = Some (PBool true).
Proof.
  refine (proj2 (proj2 (proj2 (proj2 (proj2
            (ask_body_merge env_down helper [PStr "hi"]
               [("stream", PBool true); ("temperature", PInt 0)]
               (PStr "hi") (PStr "llama2")
               [("stream", PBool true); ("temperature", PInt 0)]
               [] _ eq_refl)))))).
  unfold dict_wf. simpl.
  repeat constructor; simpl; intuition discriminate.
Defined.

(** ** [setup_ollama] *)

(** C8: when the probe answers [False], [setup_ollama] prints that the
    server is not available and returns the helper it built; the probe is
    the only request it sends, so neither [list_models] nor [pull_model] is
    called. *)
Theorem setup_ollama_unavailable (env : runtime) (model : string) (t : trace) :
  snd (is_available env helper t) = inr false ->
  setup_ollama env model t =
    ((t ++ [EvRequest (probe_request helper);
            EvPrint "❌ Ollama server not available. Please start Ollama first."])%list,
     inr helper)
  /\ requested (fst (setup_ollama env model t)) =
       (requested t ++ [probe_request helper])%list
  /\ probe_request helper <> listing_request helper
  /\ (forall name, probe_request helper <> pull_request helper name).
Proof.
  intros H.
  assert (Hrun : setup_ollama env model t =
    ((t ++ [EvRequest (probe_request helper);
            EvPrint "❌ Ollama server not available. Please start Ollama first."])%list,
     inr helper)).
  { unfold setup_ollama, bind.
    change (OllamaHelper_init default_base_url) with helper.
    rewrite is_available_run in H |- *. simpl in H.
    injection H as ->. simpl. unfold print, ret.
    now rewrite <- app_assoc. }
  split; [exact Hrun |].
  split; [| split; [discriminate | discriminate]].
  rewrite Hrun. simpl. rewrite requested_app. reflexivity.
Qed.

Lemma setup_ollama_unavailable_witness :
  setup_ollama env_down "llama2" [] =
    ([EvRequest (probe_request helper);
      EvPrint "❌ Ollama server not available. Please start Ollama first."],
     inr helper)
  /\ snd (is_available (env_status 503) helper []) = inr false.
Proof.
  split.
  - exact (proj1 (setup_ollama_unavailable env_down "llama2" [] eq_refl)).
  - reflexivity.
Defined.

(** C9: when the probe answers [True] and the model is in the list that
    [list_models] returns, [setup_ollama] prints that the model is already
    available and returns the helper; it sends the probe and the listing
    request and no pull request. *)
Theorem setup_ollama_model_present (env : runtime) (model : string)
    (t t1 t2 : trace) (models : list pyval) :
  is_available env helper t = (t1, inr true) ->
  list_models env helper t1 = (t2, inr models) ->
  py_in model models = true ->
  setup_ollama env model t =
    ((t ++ [EvRequest (probe_request helper);
            EvRequest (listing_request helper);
            EvPrint ("✅ " ++ model ++ " model already available!")])%list,
     inr helper)
  /\ requested (fst (setup_ollama env model t)) =
       (requested t ++ [probe_request helper; listing_request helper])%list
  /\ (forall name,
        ~ In (pull_request helper name)
             [probe_request helper; listing_request helper]).
Proof.
  intros Ha Hl Hin.
  assert (Ht1 : t1 = (t ++ [EvRequest (probe_request helper)])%list).
  { rewrite is_available_run in Ha. now injection Ha. }
  assert (Ht2 : t2 = (t1 ++ [EvRequest (listing_request helper)])%list).
  { rewrite <- (list_models_trace env helper t1). now rewrite Hl. }
  assert (Hrun : setup_ollama env model t =
    ((t ++ [EvRequest (probe_request helper);
            EvRequest (listing_request helper);
            EvPrint ("✅ " ++ model ++ " model already available!")])%list,
     inr helper)).
  { unfold setup_ollama, bind.
    change (OllamaHelper_init default_base_url) with helper.
    rewrite Ha. simpl. rewrite Hl, Hin. simpl. unfold print, ret.
    subst t2 t1. now rewrite <- !app_assoc. }
  split; [exact Hrun |].
  split.
  - rewrite Hrun. simpl. rewrite requested_app. reflexivity.
  - intros name [H | [H | []]]; discriminate H.
Qed.

Lemma setup_ollama_model_present_witness :
  setup_ollama (env_serving (listing_of ["mistral"; "llama2"]) PNone)
    "llama2" [] =
    ([EvRequest (probe_request helper);
      EvRequest (listing_request helper);
      EvPrint "✅ llama2 model already available!"],
     inr helper).
Proof.
  exact (proj1 (setup_ollama_model_present
                  (env_serving (listing_of ["mistral"; "llama2"]) PNone)
                  "llama2" [] _ _ [PStr "mistral"; PStr "llama2"]
                  eq_refl eq_refl eq_refl)).
Defined.

(** ** [ask_ai] *)

(** C10: [ask_ai] returns the fixed sentence both when [ask] returns
    [None] and when [ask] returns the empty string, so the two cases look
    the same to its caller. *)
Theorem ask_ai_empty_is_failure (env : runtime) (prompt model : string)
    (t t' : trace) (answer : pyval) :
  ask env helper (PStr prompt) (PStr model) [] t = (t', inr answer) ->
  answer = PNone \/ answer = PStr "" ->
  ask_ai env prompt model t =
    (t', inr (PStr "Sorry, I couldn't get a response from the AI.")).
Proof.
  intros Hask Hanswer. unfold ask_ai, bind.
  change (OllamaHelper_init default_base_url) with helper.
  rewrite Hask. destruct Hanswer as [-> | ->]; reflexivity.
Qed.

(** A refused connection, a 500 answer and a 200 answer with an empty
    [response] all give the same value. *)
Lemma ask_ai_empty_is_failure_witness :
  snd (ask_ai env_down "hello" "llama2" []) =
    inr (PStr "Sorry, I couldn't get a response from the AI.")
  /\ snd (ask_ai (env_status 500) "hello" "llama2" []) =
       inr (PStr "Sorry, I couldn't get a response from the AI.")
  /\ snd (ask_ai (env_serving (listing_of []) (PDict [("response", PStr "")]))
            "hello" "llama2" []) =
       inr (PStr "Sorry, I couldn't get a response from the AI.").
Proof.
  split; [| split].
  - exact (f_equal snd
             (ask_ai_empty_is_failure env_down "hello" "llama2" [] _ PNone
                eq_refl (or_introl eq_refl))).
  - exact (f_equal snd
             (ask_ai_empty_is_failure (env_status 500) "hello" "llama2" [] _
                PNone eq_refl (or_introl eq_refl))).
  - exact (f_equal snd
             (ask_ai_empty_is_failure
                (env_serving (listing_of []) (PDict [("response", PStr "")]))
                "hello" "llama2" [] _ (PStr "") eq_refl (or_intror eq_refl))).
Defined.

(** ** More on [ask] *)

(** The run of [ask] when the request fails. *)
Lemma ask_run_unreachable (env : runtime) (self : OllamaHelper)
    (prompt model : pyval) (kwargs : dict) (t : trace)
    (cls : request_error) (msg : string) :
  network env t (generate_request self (ask_data prompt model kwargs))
    = inl (cls, msg) ->
  ask env self prompt model kwargs t =
    ((t ++ [EvRequest (generate_request self (ask_data prompt model kwargs));
            EvPrint ("Error asking Ollama: " ++ msg)])%list,
     inr PNone).
Proof.
  intros H. unfold generate_request in H. unfold_method. rewrite H.
  now rewrite <- app_assoc.
Qed.

(** The run of [ask] on a status other than 200. *)
Lemma ask_run_unsuccessful (env : runtime) (self : OllamaHelper)
    (prompt model : pyval) (kwargs : dict) (t : trace) (r : response) :
  network env t (generate_request self (ask_data prompt model kwargs)) = inr r ->
  status_code r <> 200 ->
  ask env self prompt model kwargs t =
    ((t ++ [EvRequest (generate_request self (ask_data prompt model kwargs))])%list,
     inr PNone).
Proof.
  intros H Hs. unfold generate_request in H. unfold_method. rewrite H.
  apply Z.eqb_neq in Hs. now rewrite Hs.
Qed.

(** The run of [ask] once the server has answered 200 with a JSON body. *)
Lemma ask_run_json (env : runtime) (self : OllamaHelper)
    (prompt model : pyval) (kwargs : dict) (t : trace) (r : response)
    (js : pyval) :
  network env t (generate_request self (ask_data prompt model kwargs)) = inr r ->
  status_code r = 200 ->
  body r = Some js ->
  ask env self prompt model kwargs t =
    ((t ++ [EvRequest (generate_request self (ask_data prompt model kwargs))])%list,
     py_get js "response" (PStr "")).
Proof.
  intros H Hs Hb. unfold generate_request in H. unfold_method.
  rewrite H, Hs. simpl. unfold response_json. rewrite Hb. unfold ret, lift.
  destruct js; reflexivity || (simpl; destruct (dict_lookup "response" d); reflexivity).
Qed.

(** The run of [ask] once the server has answered 200 with a body that
    is not JSON. *)
Lemma ask_run_undecodable (env : runtime) (self : OllamaHelper)
    (prompt model : pyval) (kwargs : dict) (t : trace) (r : response) :
  network env t (generate_request self (ask_data prompt model kwargs)) = inr r ->
  status_code r = 200 ->
  body r = None ->
  ask env self prompt model kwargs t =
    match json_decode_error env with
    | RequestException _ msg =>
        ((t ++ [EvRequest (generate_request self (ask_data prompt model kwargs));
                EvPrint ("Error asking Ollama: " ++ msg)])%list,
         inr PNone)
    | e =>
        ((t ++ [EvRequest (generate_request self (ask_data prompt model kwargs))])%list,
         inl e)
    end.
Proof.
  intros H Hs Hb. unfold generate_request in H. unfold_method.
  rewrite H, Hs. simpl. unfold response_json. rewrite Hb. unfold raise.
  destruct (json_decode_error env); try reflexivity.
  now rewrite <- app_assoc.
Qed.

(** X1: an exception leaves [ask] only after a 200 answer, it is never a
    [RequestException], and nothing is printed on the way: it is
    [AttributeError] when the body is JSON but not an object, and the
    decoding error of [json()] when the body is not JSON. *)
Theorem ask_raises_only_on_200 (env : runtime) (self : OllamaHelper)
    (prompt model : pyval) (kwargs : dict) (t : trace) (e : exn) :
  snd (ask env self prompt model kwargs t) = inl e ->
  is_request_exception e = false
  /\ printed (fst (ask env self prompt model kwargs t)) = printed t
  /\ exists r,
       network env t (generate_request self (ask_data prompt model kwargs))
         = inr r
       /\ status_code r = 200
       /\ ((body r = None /\ e = json_decode_error env)
           \/ (exists js, body r = Some js
                          /\ (forall d, js <> PDict d)
                          /\ e = AttributeError)).
Proof.
  destruct (network env t (generate_request self (ask_data prompt model kwargs)))
    as [[cls msg] | r] eqn:Hnet.
  - rewrite (ask_run_unreachable _ _ _ _ _ _ _ _ Hnet). discriminate.
  - destruct (Z.eq_dec (status_code r) 200) as [Hs | Hs].
    + destruct (body r) as [js |] eqn:Hb.
      * rewrite (ask_run_json _ _ _ _ _ _ _ _ Hnet Hs Hb). simpl.
        destruct js; simpl; try (destruct (dict_lookup "response" d));
          try discriminate;
          intros H; injection H as <-;
          (split; [reflexivity |]);
          (split; [rewrite printed_app; simpl; now rewrite app_nil_r |]);
          exists r; (split; [reflexivity |]); (split; [exact Hs |]);
          right; eexists; (split; [exact Hb |]);
          (split; [intros d'; discriminate | reflexivity]).
      * rewrite (ask_run_undecodable _ _ _ _ _ _ _ Hnet Hs Hb).
        destruct (json_decode_error env) eqn:He; simpl; try discriminate;
          intros H; injection H as <-;
          (split; [reflexivity |]);
          (split; [rewrite printed_app; simpl; now rewrite app_nil_r |]);
          exists r; (split; [reflexivity |]); (split; [exact Hs |]);
          left; (split; [exact Hb | reflexivity]).
    + rewrite (ask_run_unsuccessful _ _ _ _ _ _ _ Hnet Hs). discriminate.
Qed.

Lemma ask_raises_only_on_200_witness :
  snd (ask (env_serving (listing_of []) (PList [PStr "try a histogram"]))
         helper (PStr "hi") (PStr "llama2") [] []) = inl AttributeError
  /\ is_request_exception AttributeError = false.
Proof.
  split; [reflexivity |].
  exact (proj1 (ask_raises_only_on_200
                  (env_serving (listing_of []) (PList [PStr "try a histogram"]))
                  helper (PStr "hi") (PStr "llama2") [] [] AttributeError
                  eq_refl)).
Defined.

(** X2: after a 200 answer whose body is not JSON, what [ask] does follows
    the exception that [json()] raises: a [RequestException] is caught, its
    text is printed and [None] is returned; any other exception reaches the
    caller and nothing is printed. *)
Theorem ask_undecodable_body (env : runtime) (self : OllamaHelper)
    (prompt model : pyval) (kwargs : dict) (t : trace) (r : response) :
  network env t (generate_request self (ask_data prompt model kwargs)) = inr r ->
  status_code r = 200 ->
  body r = None ->
  (forall cls msg,
     json_decode_error env = RequestException cls msg ->
     ask env self prompt model kwargs t =
       ((t ++ [EvRequest (generate_request self (ask_data prompt model kwargs));
               EvPrint ("Error asking Ollama: " ++ msg)])%list,
        inr PNone))
  /\ (is_request_exception (json_decode_error env) = false ->
      ask env self prompt model kwargs t =
        ((t ++ [EvRequest (generate_request self (ask_data prompt model kwargs))])%list,
         inl (json_decode_error env))).
Proof.
  intros H Hs Hb. rewrite (ask_run_undecodable _ _ _ _ _ _ _ H Hs Hb).
  split.
  - intros cls msg He. now rewrite He.
  - destruct (json_decode_error env); [discriminate | reflexivity ..].
Qed.

Lemma ask_undecodable_body_witness :
  snd (ask (env_status 200) helper (PStr "hi") (PStr "llama2") [] []) = inr PNone
  /\ snd (ask env_old_requests helper (PStr "hi") (PStr "llama2") [] []) =
       inl (ValueError "Expecting value: line 1 column 1 (char 0)").
Proof.
  split.
  - exact (f_equal snd
             (proj1 (ask_undecodable_body (env_status 200) helper (PStr "hi")
                       (PStr "llama2") [] [] _ eq_refl eq_refl eq_refl)
                JSONDecodeError _ eq_refl)).
  - exact (f_equal snd
             (proj2 (ask_undecodable_body env_old_requests helper (PStr "hi")
                       (PStr "llama2") [] [] _ eq_refl eq_refl eq_refl)
                eq_refl)).
Defined.

Lemma dict_lookup_none_notin (k : string) (d : dict) :
  dict_lookup k d = None -> ~ In k (map fst d).
Proof.
  induction d as [| [k' v] d IH]; simpl; [tauto |].
  destruct (String.eqb_spec k k') as [-> | Hk]; [discriminate |].
  intros H [Heq | Hin]; [congruence | now apply IH].
Qed.

Lemma dict_mem_false (k : string) (d : dict) :
  dict_mem k d = false -> ~ In k (map fst d).
Proof.
  unfold dict_mem. intros H. apply dict_lookup_none_notin.
  destruct (dict_lookup k d); [discriminate | reflexivity].
Qed.

Lemma filter_not_named_id (kw : dict) :
  ~ In "prompt" (map fst kw) ->
  ~ In "model" (map fst kw) ->
  filter not_named kw = kw.
Proof.
  induction kw as [| [k v] kw IH]; simpl; [reflexivity |].
  intros Hp Hm. unfold not_named at 1. simpl.
  destruct (String.eqb_spec k "prompt") as [-> | _]; [tauto |].
  destruct (String.eqb_spec k "model") as [-> | _]; [tauto |].
  simpl. f_equal. apply IH; tauto.
Qed.

(** X3: called with the prompt alone and keywords that name no parameter,
    [ask] uses the model ["llama2"] and passes every keyword on as an extra
    parameter. *)
Theorem ask_default_model (env : runtime) (self : OllamaHelper)
    (prompt : pyval) (kw : dict) (t : trace) :
  dict_mem "self" kw = false ->
  dict_mem "prompt" kw = false ->
  dict_mem "model" kw = false ->
  call_ask env self [prompt] kw t = ask env self prompt (PStr "llama2") kw t
  /\ requested (fst (call_ask env self [prompt] kw t)) =
       (requested t
        ++ [generate_request self (ask_data prompt (PStr "llama2") kw)])%list.
Proof.
  intros Hself Hprompt Hmodel.
  assert (Hcall : call_ask env self [prompt] kw t =
                  ask env self prompt (PStr "llama2") kw t).
  { unfold call_ask, bind_ask. fold not_named.
    rewrite Hself, Hprompt.
    pose proof (dict_mem_false _ _ Hprompt) as Hp.
    pose proof (dict_mem_false _ _ Hmodel) as Hm.
    rewrite (dict_lookup_absent _ _ Hm).
    now rewrite (filter_not_named_id _ Hp Hm). }
  split; [exact Hcall |].
  rewrite Hcall. apply ask_requested.
Qed.

Lemma ask_default_model_witness :
  requested
    (fst (call_ask env_down helper [PStr "hi"] [("temperature", PInt 0)] [])) =
  [mkRequest POST "http://ollama:11434/api/generate"
     (Some (PDict [("model", PStr "llama2"); ("prompt", PStr "hi");
                   ("stream", PBool false); ("temperature", PInt 0)]))
     false (Some 60)].
Proof.
  exact (proj2 (ask_default_model env_down helper (PStr "hi")
                  [("temperature", PInt 0)] [] eq_refl eq_refl eq_refl)).
Defined.

Lemma dict_set_keys (k : string) (v : pyval) (d : dict) :
  map fst (dict_set k v d) =
  (map fst d ++ if dict_mem k d then [] else [k])%list.
Proof.
  unfold dict_mem.
  induction d as [| [k' v'] d IH]; simpl; [reflexivity |].
  destruct (String.eqb_spec k k') as [-> | Hk]; simpl.
  - now rewrite app_nil_r.
  - now rewrite IH.
Qed.

Lemma dict_set_wf (k : string) (v : pyval) (d : dict) :
  dict_wf d -> dict_wf (dict_set k v d).
Proof.
  unfold dict_wf. intros Hwf. rewrite dict_set_keys.
  destruct (dict_mem k d) eqn:Hmem.
  - now rewrite app_nil_r.
  - apply NoDup_app; [exact Hwf | repeat constructor; simpl; tauto |].
    intros x Hx [<- | []]. now apply (dict_mem_false _ _ Hmem).
Qed.

Lemma dict_update_wf (items d : dict) :
  dict_wf d -> dict_wf (dict_update d items).
Proof.
  unfold dict_update. revert d.
  induction items as [| [k v] items IH]; intros d Hwf; simpl; [exact Hwf |].
  apply IH. now apply dict_set_wf.
Qed.

Lemma dict_update_keys (items d : dict) :
  exists added,
    map fst (dict_update d items) = (map fst d ++ added)%list
    /\ (forall k, In k added -> In k (map fst items))
    /\ (forall k, In k (map fst items) ->
                  In k (map fst d) \/ In k added).
Proof.
  unfold dict_update. revert d.
  induction items as [| [k v] items IH]; intros d; simpl.
  - exists []. rewrite app_nil_r. repeat split; simpl; tauto.
  - destruct (IH (dict_set k v d)) as [added [Hkeys [Hsub Hsup]]].
    rewrite dict_set_keys in Hkeys, Hsup.
    destruct (dict_mem k d) eqn:Hmem.
    + rewrite app_nil_r in Hkeys, Hsup.
      exists added. split; [exact Hkeys |]. split.
      * intros k' Hin. right. now apply Hsub.
      * intros k' [<- | Hin]; [| now apply Hsup].
        left. unfold dict_mem in Hmem.
        destruct (dict_lookup k d) eqn:Hl; [| discriminate].
        destruct (in_dec string_dec k (map fst d)) as [Hyes | Hno];
          [exact Hyes |].
        rewrite (dict_lookup_absent _ _ Hno) in Hl. discriminate.
    + exists (k :: added). split; [| split].
      * rewrite Hkeys, <- app_assoc. reflexivity.
      * intros k' [<- | Hin]; [now left | right; now apply Hsub].
      * intros k' [<- | Hin]; [right; now left |].
        destruct (Hsup k' Hin) as [H | H]; [| right; now right].
        apply in_app_or in H. destruct H as [H | [<- | []]];
          [now left | right; now left].
Qed.

(** X4: whatever extra parameters are passed, the body that [ask] builds
    has distinct keys, starts with [model], [prompt] and [stream] in this
    order, and holds beyond them exactly the other keys of the extra
    parameters. *)
Theorem ask_data_keys (prompt model : pyval) (kwargs : dict) :
  dict_wf (ask_data prompt model kwargs)
  /\ exists added,
       map fst (ask_data prompt model kwargs) =
         ("model" :: "prompt" :: "stream" :: added)
       /\ (forall k, In k added <->
                     In k (map fst kwargs)
                     /\ k <> "model" /\ k <> "prompt" /\ k <> "stream").
Proof.
  unfold ask_data, dict_display.
  change (dict_update []
            [("model", model); ("prompt", prompt); ("stream", PBool false)])
    with (ask_defaults prompt model).
  assert (Hwf0 : dict_wf (ask_defaults prompt model)).
  { unfold dict_wf. simpl. repeat constructor; simpl; intuition discriminate. }
  pose proof (dict_update_wf kwargs _ Hwf0) as Hwf.
  split; [exact Hwf |].
  destruct (dict_update_keys kwargs (ask_defaults prompt model))
    as [added [Hkeys [Hsub Hsup]]].
  exists added. split; [exact Hkeys |].
  unfold dict_wf in Hwf. rewrite Hkeys in Hwf. simpl in Hwf.
  assert (Hfresh : forall k, In k added ->
                     k <> "model" /\ k <> "prompt" /\ k <> "stream").
  { intros k Hin.
    inversion Hwf as [| ? ? H1 Hwf1]; subst.
    inversion Hwf1 as [| ? ? H2 Hwf2]; subst.
    inversion Hwf2 as [| ? ? H3 _]; subst.
    repeat split; intros ->; simpl in *; tauto. }
  intros k. split.
  - intros Hin. split; [now apply Hsub | now apply Hfresh].
  - intros [Hin [Hm [Hp Hs]]].
    destruct (Hsup k Hin) as [H | H]; [| exact H].
    simpl in H. intuition congruence.
Qed.

(** ** More on [list_models] *)

(** The comprehension raises [KeyError] or [TypeError] only. *)
Lemma getitem_each_error (key : string) (items : list pyval) (e : exn) :
  getitem_each key items = inl e -> e = KeyError key \/ e = TypeError.
Proof.
  induction items as [| x items IH]; simpl; [discriminate |].
  destruct (py_getitem x key) as [e1 | v] eqn:Hx.
  - intros H; injection H as <-.
    destruct x; simpl in Hx; try (injection Hx as <-; now right).
    destruct (dict_lookup key d); [discriminate |].
    injection Hx as <-. now left.
  - destruct (getitem_each key items) as [e2 | vs]; [| discriminate].
    intros H; injection H as <-. now apply IH.
Qed.

(** The run of [list_models] on a 200 answer whose body is an object
    with a [models] list. *)
Lemma list_models_run_entries (env : runtime) (self : OllamaHelper)
    (t : trace) (r : response) (d : dict) (entries : list pyval) :
  network env t (listing_request self) = inr r ->
  status_code r = 200 ->
  body r = Some (PDict d) ->
  dict_lookup "models" d = Some (PList entries) ->
  list_models env self t =
    ((t ++ [EvRequest (listing_request self)])%list,
     getitem_each "name" entries).
Proof.
  intros H Hs Hb Hm. unfold listing_request in H. unfold_method.
  rewrite H, Hs. simpl. unfold response_json. rewrite Hb.
  unfold ret, lift. simpl. rewrite Hm. unfold ret. simpl.
  destruct (getitem_each "name" entries) as [e | names] eqn:He;
    [| reflexivity].
  destruct (getitem_each_error _ _ _ He) as [-> | ->]; reflexivity.
Qed.

Lemma getitem_each_inv (items names : list pyval) :
  getitem_each "name" items = inr names ->
  map entry_name items = map Some names.
Proof.
  revert names. induction items as [| x items IH]; intros names; simpl.
  - intros H; injection H as <-. reflexivity.
  - destruct (py_getitem x "name") as [e | v] eqn:Hx; [discriminate |].
    destruct (getitem_each "name" items) as [e | vs]; [discriminate |].
    intros H; injection H as <-. simpl. rewrite (IH vs eq_refl).
    f_equal. destruct x; simpl in Hx |- *; try discriminate.
    destruct (dict_lookup "name" d); [now injection Hx as -> | discriminate].
Qed.

(** X5: on a 200 answer whose body is an object with a [models] list,
    [list_models] returns a list exactly when every entry is an object with
    a [name], and the list then holds these names, one per entry. *)
Theorem list_models_returns_iff (env : runtime) (self : OllamaHelper)
    (t : trace) (r : response) (d : dict) (entries names : list pyval) :
  network env t (listing_request self) = inr r ->
  status_code r = 200 ->
  body r = Some (PDict d) ->
  dict_lookup "models" d = Some (PList entries) ->
  (snd (list_models env self t) = inr names <->
   map entry_name entries = map Some names)
  /\ (snd (list_models env self t) = inr names ->
      length names = length entries).
Proof.
  intros H Hs Hb Hm.
  rewrite (list_models_run_entries _ _ _ _ _ _ H Hs Hb Hm). simpl.
  split; [split |].
  - apply getitem_each_inv.
  - apply getitem_each_names.
  - intros Hn. apply getitem_each_inv in Hn.
    apply (f_equal (@length _)) in Hn. rewrite !length_map in Hn.
    now symmetry.
Qed.

Lemma list_models_returns_iff_witness :
  snd (list_models (env_serving (listing_of ["llama2"; "mistral"]) PNone)
         helper []) = inr [PStr "llama2"; PStr "mistral"]
  /\ length [PStr "llama2"; PStr "mistral"] = 2%nat.
Proof.
  split; [| reflexivity].
  exact (proj2 (proj1 (list_models_returns_iff
                         (env_serving (listing_of ["llama2"; "mistral"]) PNone)
                         helper [] _ _ _ [PStr "llama2"; PStr "mistral"]
                         eq_refl eq_refl eq_refl eq_refl))
           eq_refl).
Defined.

Lemma getitem_each_first_bad (good rest : list pyval) (bad : pyval)
    (names : list pyval) :
  map entry_name good = map Some names ->
  entry_name bad = None ->
  getitem_each "name" (good ++ bad :: rest) =
    inl match bad with
        | PDict _ => KeyError "name"
        | _ => TypeError
        end.
Proof.
  revert names. induction good as [| x good IH]; intros names Hgood Hbad.
  - simpl. destruct bad; simpl in Hbad |- *; try reflexivity.
    now rewrite Hbad.
  - destruct names as [| n names]; [discriminate |].
    simpl in Hgood. injection Hgood as Hx Hgood.
    simpl. rewrite (IH _ Hgood Hbad).
    destruct x; simpl in Hx |- *; try discriminate.
    now rewrite Hx.
Qed.

(** X6: when the entries of a 200 listing are fine up to one that has no
    [name], [list_models] raises at that entry, [KeyError] if it is an
    object and [TypeError] otherwise, and the names read so far are lost. *)
Theorem list_models_first_bad_entry (env : runtime) (self : OllamaHelper)
    (t : trace) (r : response) (d : dict) (good rest : list pyval)
    (bad : pyval) (names : list pyval) :
  network env t (listing_request self) = inr r ->
  status_code r = 200 ->
  body r = Some (PDict d) ->
  dict_lookup "models" d = Some (PList (good ++ bad :: rest)) ->
  map entry_name good = map Some names ->
  entry_name bad = None ->
  list_models env self t =
    ((t ++ [EvRequest (listing_request self)])%list,
     inl match bad with
         | PDict _ => KeyError "name"
         | _ => TypeError
         end).
Proof.
  intros H Hs Hb Hm Hgood Hbad.
  rewrite (list_models_run_entries _ _ _ _ _ _ H Hs Hb Hm).
  now rewrite (getitem_each_first_bad _ _ _ _ Hgood Hbad).
Qed.

Lemma list_models_first_bad_entry_witness :
  snd (list_models
         (env_serving
            (PDict [("models",
                     PList [PDict [("name", PStr "llama2")];
                            PStr "mistral";
                            PDict [("name", PStr "phi")]])])
            PNone)
         helper []) = inl TypeError.
Proof.
  exact (f_equal snd
           (list_models_first_bad_entry
              (env_serving
                 (PDict [("models",
                          PList [PDict [("name", PStr "llama2")];
                                 PStr "mistral";
                                 PDict [("name", PStr "phi")]])])
                 PNone)
              helper [] _ _ [PDict [("name", PStr "llama2")]]
              [PDict [("name", PStr "phi")]] (PStr "mistral") [PStr "llama2"]
              eq_refl eq_refl eq_refl eq_refl eq_refl eq_refl)).
Defined.

(** X7: a 200 answer whose body is an object without [models] key, or
    with an empty list, an empty string or an empty object under that key,
    gives the empty list, as a failed request does. *)
Theorem list_models_empty_listing (env : runtime) (self : OllamaHelper)
    (t : trace) (r : response) (d : dict) :
  network env t (listing_request self) = inr r ->
  status_code r = 200 ->
  body r = Some (PDict d) ->
  dict_lookup "models" d = None
  \/ dict_lookup "models" d = Some (PList [])
  \/ dict_lookup "models" d = Some (PStr "")
  \/ dict_lookup "models" d = Some (PDict []) ->
  list_models env self t =
    ((t ++ [EvRequest (listing_request self)])%list, inr []).
Proof.
  intros H Hs Hb Hm. unfold listing_request in H. unfold_method.
  rewrite H, Hs. simpl. unfold response_json. rewrite Hb.
  unfold ret, lift. simpl.
  destruct Hm as [-> | [-> | [-> | ->]]]; reflexivity.
Qed.

Lemma list_models_empty_listing_witness :
  list_models (env_serving (PDict [("error", PStr "not ready")]) PNone)
    helper [] =
    ([EvRequest (listing_request helper)], inr []).
Proof.
  exact (list_models_empty_listing
           (env_serving (PDict [("error", PStr "not ready")]) PNone)
           helper [] _ _ eq_refl eq_refl eq_refl (or_introl eq_refl)).
Defined.

(** ** More on [setup_ollama] *)

Lemma py_in_iff (s : string) (items : list pyval) :
  py_in s items = true <-> In (PStr s) items.
Proof.
  unfold py_in. rewrite existsb_exists. split.
  - intros [x [Hin Heq]]. destruct x; simpl in Heq; try discriminate.
    apply String.eqb_eq in Heq. now subst.
  - intros Hin. exists (PStr s). split; [exact Hin |].
    simpl. apply String.eqb_refl.
Qed.

(** The run of [setup_ollama] once the probe has answered [True]. *)
Lemma setup_ollama_run_available (env : runtime) (model : string)
    (t : trace) :
  snd (is_available env helper t) = inr true ->
  setup_ollama env model t =
    match list_models env helper (t ++ [EvRequest (probe_request helper)])%list with
    | (t2, inl e) => (t2, inl e)
    | (t2, inr models) =>
        if py_in model models then
          ((t2 ++ [EvPrint ("✅ " ++ model ++ " model already available!")])%list,
           inr helper)
        else
          let t3 := (t2 ++ [EvPrint ("📥 Pulling " ++ model ++ " model...")])%list in
          ((t3 ++ [EvRequest (pull_request helper model);
                   EvPrint
                     (match network env t3 (pull_request helper model) with
                      | inr r =>
                          if status_code r =? 200
                          then "✅ " ++ model ++ " model ready!"
                          else "❌ Failed to pull " ++ model ++ " model"
                      | inl _ => "❌ Failed to pull " ++ model ++ " model"
                      end)])%list,
           inr helper)
    end.
Proof.
  intros Ha. unfold setup_ollama, bind.
  change (OllamaHelper_init default_base_url) with helper.
  rewrite is_available_run in Ha |- *. simpl in Ha. injection Ha as ->.
  simpl.
  destruct (list_models env helper (t ++ [EvRequest (probe_request helper)])%list)
    as [t2 [e | models]]; [reflexivity |].
  destruct (py_in model models); simpl.
  - reflexivity.
  - unfold print at 1. rewrite pull_model_run.
    destruct (network env _ (pull_request helper model)) as [[cls msg] | r].
    + unfold print, ret. now rewrite <- app_assoc.
    + destruct (status_code r =? 200); unfold print, ret;
        now rewrite <- app_assoc.
Qed.

(** The run of [setup_ollama] once the probe has answered [False]. *)
Lemma setup_ollama_run_unavailable (env : runtime) (model : string)
    (t : trace) :
  snd (is_available env helper t) = inr false ->
  setup_ollama env model t =
    ((t ++ [EvRequest (probe_request helper);
            EvPrint "❌ Ollama server not available. Please start Ollama first."])%list,
     inr helper)
  /\ printed (fst (setup_ollama env model t)) =
       (printed t
        ++ ["❌ Ollama server not available. Please start Ollama first."])%list.
Proof.
  intros Ha.
  assert (Hrun : setup_ollama env model t =
    ((t ++ [EvRequest (probe_request helper);
            EvPrint "❌ Ollama server not available. Please start Ollama first."])%list,
     inr helper)).
  { unfold setup_ollama, bind.
    change (OllamaHelper_init default_base_url) with helper.
    rewrite is_available_run in Ha |- *. simpl in Ha.
    injection Ha as ->. simpl. unfold print, ret.
    now rewrite <- app_assoc. }
  split; [exact Hrun |].
  rewrite Hrun. simpl. rewrite printed_app. reflexivity.
Qed.

(** X8: when the probe answers [True] and the model name is not among
    the names listed, [setup_ollama] announces the pull, sends the pull
    request, and then prints that the model is ready when the answer has
    status 200, and that the pull failed otherwise; it returns the helper
    in both cases. *)
Theorem setup_ollama_pulls_missing (env : runtime) (model : string)
    (t t1 t2 : trace) (models : list pyval) :
  is_available env helper t = (t1, inr true) ->
  list_models env helper t1 = (t2, inr models) ->
  ~ In (PStr model) models ->
  exists pulled : bool,
    setup_ollama env model t =
      ((t ++ [EvRequest (probe_request helper);
              EvRequest (listing_request helper);
              EvPrint ("📥 Pulling " ++ model ++ " model...");
              EvRequest (pull_request helper model);
              EvPrint (if pulled then "✅ " ++ model ++ " model ready!"
                       else "❌ Failed to pull " ++ model ++ " model")])%list,
       inr helper)
    /\ (pulled = true <->
        exists r,
          network env
            (t ++ [EvRequest (probe_request helper);
                   EvRequest (listing_request helper);
                   EvPrint ("📥 Pulling " ++ model ++ " model...")])%list
            (pull_request helper model) = inr r
          /\ status_code r = 200).
Proof.
  intros Ha Hl Hnotin.
  assert (Ht1 : t1 = (t ++ [EvRequest (probe_request helper)])%list).
  { rewrite is_available_run in Ha. now injection Ha. }
  assert (Ht2 : t2 = (t1 ++ [EvRequest (listing_request helper)])%list).
  { rewrite <- (list_models_trace env helper t1). now rewrite Hl. }
  rewrite setup_ollama_run_available by now rewrite Ha.
  rewrite <- Ht1, Hl.
  assert (Hin : py_in model models = false).
  { destruct (py_in model models) eqn:Hp; [| reflexivity].
    apply py_in_iff in Hp. contradiction. }
  rewrite Hin. subst t2 t1. cbv zeta.
  replace (((t ++ [EvRequest (probe_request helper)])
            ++ [EvRequest (listing_request helper)])
           ++ [EvPrint ("📥 Pulling " ++ model ++ " model...")])%list
    with (t ++ [EvRequest (probe_request helper);
                EvRequest (listing_request helper);
                EvPrint ("📥 Pulling " ++ model ++ " model...")])%list
    by now rewrite <- !app_assoc.
  destruct (network env _ (pull_request helper model)) as [[cls msg] | r].
  - exists false. split; [now rewrite <- !app_assoc |].
    split; [discriminate | intros [r [Hr _]]; discriminate].
  - exists (status_code r =? 200). split.
    + rewrite <- !app_assoc. simpl.
      destruct (status_code r =? 200); reflexivity.
    + split.
      * intros Hs. exists r. split; [reflexivity | now apply Z.eqb_eq].
      * intros [r' [Hr Hs]]. injection Hr as <-. now apply Z.eqb_eq.
Qed.

(** A listing that names the model with its tag does not count, so the
    model is pulled; the second server refuses the pull. *)
Lemma setup_ollama_pulls_missing_witness :
  setup_ollama (env_serving (listing_of ["llama2:latest"]) PNone) "llama2" [] =
    ([EvRequest (probe_request helper);
      EvRequest (listing_request helper);
      EvPrint "📥 Pulling llama2 model...";
      EvRequest (pull_request helper "llama2");
      EvPrint "✅ llama2 model ready!"],
     inr helper)
  /\ printed (fst (setup_ollama (env_pull_refused ["mistral"]) "llama2" [])) =
       ["📥 Pulling llama2 model..."; "❌ Failed to pull llama2 model"].
Proof.
  split; [| reflexivity].
  destruct (setup_ollama_pulls_missing
              (env_serving (listing_of ["llama2:latest"]) PNone) "llama2"
              [] _ _ [PStr "llama2:latest"] eq_refl eq_refl)
    as [pulled [Hrun [_ Hpulled]]].
  - simpl. intros [H | []]. discriminate H.
  - rewrite Hrun.
    rewrite (Hpulled (ex_intro _ (mkResponse 200 None) (conj eq_refl eq_refl))).
    reflexivity.
Defined.

(** X9: a run of [setup_ollama] sends the probe, then possibly the listing
    request, then possibly the pull request for the model, in this order
    and nothing else; and when it returns, it returns the helper for the
    default URL, whether or not the model is ready. *)
Theorem setup_ollama_requests (env : runtime) (model : string) (t : trace) :
  (exists n : nat,
     (1 <= n <= 3)%nat
     /\ requested (fst (setup_ollama env model t)) =
          (requested t
           ++ firstn n [probe_request helper; listing_request helper;
                        pull_request helper model])%list)
  /\ (forall o, snd (setup_ollama env model t) = inr o -> o = helper).
Proof.
  destruct (snd (is_available env helper t)) as [e | [|]] eqn:Ha.
  - rewrite is_available_run in Ha. discriminate Ha.
  - rewrite (setup_ollama_run_available _ _ _ Ha).
    pose proof (list_models_trace env helper
                  (t ++ [EvRequest (probe_request helper)])%list) as Ht2.
    destruct (list_models env helper (t ++ [EvRequest (probe_request helper)])%list)
      as [t2 [e | models]]; simpl in Ht2; subst t2.
    + split; [| discriminate].
      exists 2%nat. split; [lia |]. simpl.
      rewrite !requested_app. simpl. now rewrite <- app_assoc.
    + destruct (py_in model models).
      * split; [| intros o H; now injection H].
        exists 2%nat. split; [lia |]. simpl.
        rewrite !requested_app. simpl. rewrite app_nil_r.
        now rewrite <- app_assoc.
      * split; [| intros o H; now injection H].
        exists 3%nat. split; [lia |]. cbv zeta. simpl.
        rewrite !requested_app. simpl. rewrite app_nil_r.
        now rewrite <- !app_assoc.
  - destruct (setup_ollama_run_unavailable env model t Ha) as [Hrun _].
    rewrite Hrun. split; [| intros o H; now injection H].
    exists 1%nat. split; [lia |]. simpl.
    rewrite requested_app. reflexivity.
Qed.

(** X10: [setup_ollama] raises exactly when the probe answers [True] and
    [list_models] then raises, with the same exception; it has then sent
    the probe and the listing request and printed nothing. *)
Theorem setup_ollama_raises_iff (env : runtime) (model : string) (t : trace)
    (e : exn) :
  (snd (setup_ollama env model t) = inl e <->
   snd (is_available env helper t) = inr true
   /\ snd (list_models env helper (t ++ [EvRequest (probe_request helper)])%list)
      = inl e)
  /\ (snd (setup_ollama env model t) = inl e ->
      fst (setup_ollama env model t) =
        (t ++ [EvRequest (probe_request helper);
               EvRequest (listing_request helper)])%list).
Proof.
  destruct (snd (is_available env helper t)) as [e0 | [|]] eqn:Ha.
  - rewrite is_available_run in Ha. discriminate Ha.
  - rewrite (setup_ollama_run_available _ _ _ Ha).
    pose proof (list_models_trace env helper
                  (t ++ [EvRequest (probe_request helper)])%list) as Ht2.
    destruct (list_models env helper (t ++ [EvRequest (probe_request helper)])%list)
      as [t2 [e1 | models]]; simpl in Ht2; subst t2.
    + simpl. split.
      * split; [intros H; injection H as ->; now split
               | intros [_ H]; injection H as ->; reflexivity].
      * intros _. now rewrite <- app_assoc.
    + destruct (py_in model models); simpl;
        (split; [split; [discriminate | intros [_ H]; discriminate H]
                | discriminate]).
  - destruct (setup_ollama_run_unavailable env model t Ha) as [Hrun _].
    rewrite Hrun. simpl.
    split; [split; [discriminate | intros [H _]; discriminate H]
           | discriminate].
Qed.

Lemma setup_ollama_raises_iff_witness :
  snd (setup_ollama
         (env_serving (PDict [("models", PList [PDict [("model", PStr "llama2")]])])
            PNone)
         "llama2" []) = inl (KeyError "name").
Proof.
  exact (proj2 (proj1 (setup_ollama_raises_iff
                         (env_serving
                            (PDict [("models",
                                     PList [PDict [("model", PStr "llama2")]])])
                            PNone)
                         "llama2" [] (KeyError "name")))
           (conj eq_refl eq_refl)).
Defined.

(** X11: when the probe answers [True] but the listing request then fails
    or is answered with a status other than 200, the empty list stands for
    the listing, so [setup_ollama] requests the pull of the model, whatever
    its name. *)
Theorem setup_ollama_listing_failure (env : runtime) (model : string)
    (t : trace) :
  snd (is_available env helper t) = inr true ->
  (exists cls msg,
     network env (t ++ [EvRequest (probe_request helper)])%list
       (listing_request helper) = inl (cls, msg))
  \/ (exists r,
        network env (t ++ [EvRequest (probe_request helper)])%list
          (listing_request helper) = inr r
        /\ status_code r <> 200) ->
  exists outcome,
    fst (setup_ollama env model t) =
      (t ++ [EvRequest (probe_request helper);
             EvRequest (listing_request helper);
             EvPrint ("📥 Pulling " ++ model ++ " model...");
             EvRequest (pull_request helper model);
             EvPrint outcome])%list
    /\ snd (setup_ollama env model t) = inr helper.
Proof.
  intros Ha Hlist.
  rewrite (setup_ollama_run_available _ _ _ Ha).
  assert (Hl : list_models env helper
                 (t ++ [EvRequest (probe_request helper)])%list =
               (((t ++ [EvRequest (probe_request helper)])
                 ++ [EvRequest (listing_request helper)])%list, inr [])).
  { destruct Hlist as [[cls [msg H]] | [r [H Hs]]].
    - exact (list_models_unreachable _ _ _ _ _ H).
    - exact (list_models_unsuccessful _ _ _ _ H Hs). }
  rewrite Hl. simpl. eexists. split; [| reflexivity].
  now rewrite <- !app_assoc.
Qed.

(** A server that answers the probe and then times out. *)
Lemma setup_ollama_listing_failure_witness :
  printed (fst (setup_ollama env_flaky "llama2" [])) =
    ["📥 Pulling llama2 model..."; "❌ Failed to pull llama2 model"]
  /\ snd (setup_ollama env_flaky "llama2" []) = inr helper.
Proof.
  destruct (setup_ollama_listing_failure env_flaky "llama2" [] eq_refl)
    as [outcome [Hfst Hsnd]].
  - left. exists ReadTimeout, "Read timed out.". reflexivity.
  - split; [reflexivity | exact Hsnd].
Defined.

(** ** More on [ask_ai] *)

(** X12: whatever the server does, a value that [ask_ai] returns is never
    [None] and never empty: it counts as true. *)
Theorem ask_ai_truthy (env : runtime) (prompt model : string) (t : trace)
    (v : pyval) :
  snd (ask_ai env prompt model t) = inr v ->
  truthy v = true /\ v <> PNone /\ v <> PStr "".
Proof.
  unfold ask_ai, bind.
  destruct (ask env (OllamaHelper_init default_base_url) (PStr prompt)
              (PStr model) [] t) as [t' [e | answer]]; [discriminate |].
  unfold ret. simpl. intros H. injection H as <-.
  destruct (truthy answer) eqn:Ht.
  - rewrite Ht. repeat split; intros ->; discriminate Ht.
  - repeat split; discriminate.
Qed.

Lemma ask_ai_truthy_witness :
  truthy (PStr "Sorry, I couldn't get a response from the AI.") = true.
Proof.
  exact (proj1 (ask_ai_truthy
                  (env_serving (listing_of []) (PDict [("response", PNone)]))
                  "hello" "llama2" []
                  (PStr "Sorry, I couldn't get a response from the AI.")
                  eq_refl)).
Defined.

(** X13: [ask_ai] sends one request to the default URL, with the prompt,
    the model and [stream] false as its body.  A failed request gives the
    printed diagnostic and the fixed sentence, a status other than 200 gives
    the fixed sentence, and a 200 answer whose [response] is a string that
    is not empty gives that string. *)
Theorem ask_ai_run (env : runtime) (prompt model : string) (t : trace) :
  requested (fst (ask_ai env prompt model t)) =
    (requested t ++ [generate_request helper (plain_body prompt model)])%list
  /\ (forall cls msg,
        network env t (generate_request helper (plain_body prompt model))
          = inl (cls, msg) ->
        ask_ai env prompt model t =
          ((t ++ [EvRequest (generate_request helper (plain_body prompt model));
                  EvPrint ("Error asking Ollama: " ++ msg)])%list,
           inr (PStr ask_ai_fallback)))
  /\ (forall r,
        network env t (generate_request helper (plain_body prompt model))
          = inr r ->
        status_code r <> 200 ->
        ask_ai env prompt model t =
          ((t ++ [EvRequest (generate_request helper (plain_body prompt model))])%list,
           inr (PStr ask_ai_fallback)))
  /\ (forall r d text,
        network env t (generate_request helper (plain_body prompt model))
          = inr r ->
        status_code r = 200 ->
        body r = Some (PDict d) ->
        dict_lookup "response" d = Some (PStr text) ->
        text <> "" ->
        ask_ai env prompt model t =
          ((t ++ [EvRequest (generate_request helper (plain_body prompt model))])%list,
           inr (PStr text))).
Proof.
  change (plain_body prompt model)
    with (ask_data (PStr prompt) (PStr model) []).
  unfold ask_ai, bind.
  change (OllamaHelper_init default_base_url) with helper.
  split; [| split; [| split]].
  - pose proof (ask_requested env helper (PStr prompt) (PStr model) [] t) as H.
    destruct (ask env helper (PStr prompt) (PStr model) [] t)
      as [t' [e | answer]]; exact H.
  - intros cls msg H. now rewrite (ask_run_unreachable _ _ _ _ _ _ _ _ H).
  - intros r H Hs. now rewrite (ask_run_unsuccessful _ _ _ _ _ _ _ H Hs).
  - intros r d text H Hs Hb Hl Htext.
    rewrite (ask_run_json _ _ _ _ _ _ _ _ H Hs Hb). simpl. rewrite Hl.
    unfold ret. simpl.
    apply String.eqb_neq in Htext. now rewrite Htext.
Qed.

Lemma ask_ai_run_witness :
  ask_ai (env_serving (listing_of ["llama2"])
            (PDict [("response", PStr "try a histogram")]))
    "summarize this dataset" "llama2" [] =
    ([EvRequest (generate_request helper
                   (plain_body "summarize this dataset" "llama2"))],
     inr (PStr "try a histogram")).
Proof.
  refine (proj2 (proj2 (proj2
            (ask_ai_run (env_serving (listing_of ["llama2"])
                           (PDict [("response", PStr "try a histogram")]))
               "summarize this dataset" "llama2" [])))
            _ [("response", PStr "try a histogram")] "try a histogram"
            eq_refl eq_refl eq_refl eq_refl _).
  discriminate.
Defined.

(** ** The prompt builders *)

Lemma append_assoc_string (a b c : string) :
  (a ++ b) ++ c = a ++ b ++ c.
Proof.
  induction a as [| x a IH]; simpl; [reflexivity | now rewrite IH].
Qed.

(** Both builders call [ask] with the model given by keyword. *)
Lemma call_ask_llama2 (env : runtime) (self : OllamaHelper) (prompt : string)
    (t : trace) :
  call_ask env self [PStr prompt] [("model", PStr "llama2")] t =
  ask env self (PStr prompt) (PStr "llama2") [] t.
Proof. reflexivity. Qed.

(** X14: [analyze_data] sends one request, whose body holds the model
    ["llama2"], [stream] false and a prompt in which the data summary
    stands as it was given.  A question that is not empty stands in the
    prompt too; [None] and the empty question both give the prompt of the
    second template. *)
Theorem analyze_data_request (env : runtime) (self : OllamaHelper)
    (data_summary : string) (question : option string) (t : trace) :
  exists prompt : string,
    analyze_data env self data_summary question t =
      ask env self (PStr prompt) (PStr "llama2") [] t
    /\ requested (fst (analyze_data env self data_summary question t)) =
         (requested t ++ [generate_request self (plain_body prompt "llama2")])%list
    /\ occurs_in data_summary prompt
    /\ (forall q, question = Some q -> q <> "" ->
          prompt = analyze_data_question_prompt data_summary q
          /\ occurs_in q prompt)
    /\ (question = None \/ question = Some "" ->
        prompt = analyze_data_plain_prompt data_summary).
Proof.
  assert (Hplain : occurs_in data_summary
                     (analyze_data_plain_prompt data_summary)).
  { unfold occurs_in, analyze_data_plain_prompt.
    eexists _, _. reflexivity. }
  assert (Hrequest : forall prompt,
            requested (fst (call_ask env self [PStr prompt]
                              [("model", PStr "llama2")] t)) =
            (requested t
             ++ [generate_request self (plain_body prompt "llama2")])%list).
  { intros prompt. rewrite call_ask_llama2. apply ask_requested. }
  unfold analyze_data.
  destruct question as [q |]; [destruct (truthy (PStr q)) eqn:Hq |].
  - exists (analyze_data_question_prompt data_summary q).
    split; [reflexivity |]. split; [apply Hrequest |].
    split; [| split].
    + unfold occurs_in, analyze_data_question_prompt.
      eexists _, _. reflexivity.
    + intros q' Heq _. injection Heq as <-. split; [reflexivity |].
      unfold occurs_in, analyze_data_question_prompt.
      exists ("
            I have a dataset with the following characteristics:
            " ++ data_summary ++ "

            Question: "). eexists.
      rewrite !append_assoc_string. reflexivity.
    + intros [H | H]; [discriminate |].
      injection H as ->. discriminate Hq.
  - exists (analyze_data_plain_prompt data_summary).
    split; [reflexivity |]. split; [apply Hrequest |].
    split; [exact Hplain |]. split; [| reflexivity].
    intros q' Heq Hne. injection Heq as <-.
    simpl in Hq. apply negb_false_iff, String.eqb_eq in Hq. contradiction.
  - exists (analyze_data_plain_prompt data_summary).
    split; [reflexivity |]. split; [apply Hrequest |].
    split; [exact Hplain |]. split; [discriminate | reflexivity].
Qed.

(** X15: [code_review] sends one request, whose body holds the model
    ["llama2"], [stream] false and a prompt in which the context and,
    between the two fence lines, the code stand as they were given. *)
Theorem code_review_request (env : runtime) (self : OllamaHelper)
    (code context : string) (t : trace) :
  code_review env self code context t =
    ask env self (PStr (code_review_prompt code context)) (PStr "llama2") [] t
  /\ requested (fst (code_review env self code context t)) =
       (requested t
        ++ [generate_request self
              (plain_body (code_review_prompt code context) "llama2")])%list
  /\ occurs_in ("Context: " ++ context) (code_review_prompt code context)
  /\ occurs_in ("```python
        " ++ code ++ "
        ```") (code_review_prompt code context).
Proof.
  split; [reflexivity |].
  split; [unfold code_review; rewrite call_ask_llama2; apply ask_requested |].
  split.
  - unfold occurs_in, code_review_prompt.
    exists "
        Please review this Python data science code:

        ". eexists.
    rewrite !append_assoc_string. reflexivity.
  - unfold occurs_in, code_review_prompt.
    exists ("
        Please review this Python data science code:

        Context: " ++ context ++ "

        Code:
        "). eexists.
    rewrite !append_assoc_string. simpl. reflexivity.
Qed.

(** X16: when the request that [analyze_data] sends fails, it returns
    [None], not a string, after the diagnostic of [ask] with the text of
    the exception has been printed; and so does [code_review] when its
    request fails. *)
Theorem builders_unreachable (env : runtime) (self : OllamaHelper)
    (data_summary : string) (question : option string)
    (code context : string) (t : trace) :
  (forall cls msg,
     network env t
       (generate_request self
          (plain_body (analyze_data_prompt data_summary question) "llama2"))
       = inl (cls, msg) ->
     analyze_data env self data_summary question t =
       ((t ++ [EvRequest
                 (generate_request self
                    (plain_body (analyze_data_prompt data_summary question)
                       "llama2"));
               EvPrint ("Error asking Ollama: " ++ msg)])%list,
        inr PNone))
  /\ (forall cls msg,
        network env t
          (generate_request self
             (plain_body (code_review_prompt code context) "llama2"))
          = inl (cls, msg) ->
        code_review env self code context t =
          ((t ++ [EvRequest
                    (generate_request self
                       (plain_body (code_review_prompt code context) "llama2"));
                  EvPrint ("Error asking Ollama: " ++ msg)])%list,
           inr PNone)).
Proof.
  split; intros cls msg H.
  - unfold analyze_data.
    change (match question with
            | Some q =>
                if truthy (PStr q)
                then analyze_data_question_prompt data_summary q
                else analyze_data_plain_prompt data_summary
            | None => analyze_data_plain_prompt data_summary
            end) with (analyze_data_prompt data_summary question).
    cbv zeta. rewrite call_ask_llama2.
    exact (ask_run_unreachable env self _ _ [] t cls msg H).
  - unfold code_review. cbv zeta. rewrite call_ask_llama2.
    exact (ask_run_unreachable env self _ _ [] t cls msg H).
Qed.

(** A dead server, and a server on which only [/api/generate] times
    out. *)
Lemma builders_unreachable_witness :
  snd (analyze_data env_down helper "Dataset shape: (214, 10)"
         (Some "What statistical tests should I run?") []) = inr PNone
  /\ printed (fst (code_review env_generate_timeout helper "df.describe()" "" []))
     = ["Error asking Ollama: Read timed out."]
  /\ snd (code_review env_generate_timeout helper "df.describe()" "" [])
     = inr PNone.
Proof.
  split; [| split].
  - exact (f_equal snd
             (proj1 (builders_unreachable env_down helper
                       "Dataset shape: (214, 10)"
                       (Some "What statistical tests should I run?")
                       "" "" [])
                ConnectionError "Connection refused" eq_refl)).
  - exact (f_equal (fun run => printed (fst run))
             (proj2 (builders_unreachable env_generate_timeout helper
                       "" None "df.describe()" "" [])
                ReadTimeout "Read timed out." eq_refl)).
  - exact (f_equal snd
             (proj2 (builders_unreachable env_generate_timeout helper
                       "" None "df.describe()" "" [])
                ReadTimeout "Read timed out." eq_refl)).
Defined.

(** ** [check_dependencies] *)

(** The loop appends to [missing_packages] the packages that raise
    [ImportError], in the order of the list, when no import raises
    anything else. *)
Lemma import_each_filter (imports : string -> import_outcome)
    (packages missing_packages : list string) :
  (forall p e, In p packages -> imports p <> RaisesOther e) ->
  import_each imports packages missing_packages =
    inr (missing_packages
         ++ filter (fun p => negb (importable imports p)) packages)%list.
Proof.
  revert missing_packages.
  induction packages as [| p packages IH]; intros missing_packages Hok; simpl.
  - now rewrite app_nil_r.
  - unfold importable at 1.
    destruct (imports p) as [| | e] eqn:Hp; simpl.
    + apply IH. intros q e Hin. apply Hok. now right.
    + rewrite IH by (intros q e Hin; apply Hok; now right).
      now rewrite <- app_assoc.
    + exfalso. apply (Hok p e); [now left | exact Hp].
Qed.

(** X17: when no import raises anything but [ImportError],
    [check_dependencies] returns [True] exactly when all six packages can
    be imported and then prints one line; otherwise it returns [False]
    after two lines that name the missing packages in the order of the
    list, joined by a comma and a space in the first and by a space in the
    [pip install] line. *)
Theorem check_dependencies_report (imports : string -> import_outcome)
    (t : trace) :
  (forall p e, In p required_packages -> imports p <> RaisesOther e) ->
  let missing := filter (fun p => negb (importable imports p)) required_packages in
  check_dependencies imports t =
    match missing with
    | [] => ((t ++ [EvPrint "✅ All required packages installed"])%list, inr true)
    | _ :: _ =>
        ((t ++ [EvPrint ("❌ Missing packages: " ++ String.concat ", " missing);
                EvPrint ("Run: pip install " ++ String.concat " " missing)])%list,
         inr false)
    end
  /\ (snd (check_dependencies imports t) = inr true <->
      forall p, In p required_packages -> imports p = Imported).
Proof.
  intros Hok. cbv zeta.
  assert (Hmissing :
            filter (fun p => negb (importable imports p)) required_packages = []
            <-> forall p, In p required_packages -> imports p = Imported).
  { split.
    - intros Hnil p Hin.
      destruct (imports p) as [| | e] eqn:Hp; [reflexivity | |].
      + assert (Hf : In p (filter (fun p => negb (importable imports p))
                             required_packages)).
        { apply filter_In. split; [exact Hin |].
          unfold importable. now rewrite Hp. }
        rewrite Hnil in Hf. destruct Hf.
      + exfalso. exact (Hok p e Hin Hp).
    - intros Hall.
      destruct (filter (fun p => negb (importable imports p)) required_packages)
        as [| p rest] eqn:Hf; [reflexivity |].
      assert (Hin : In p (filter (fun p => negb (importable imports p))
                            required_packages)) by (rewrite Hf; now left).
      apply filter_In in Hin. destruct Hin as [Hin Hneg].
      unfold importable in Hneg. rewrite (Hall p Hin) in Hneg.
      discriminate. }
  unfold check_dependencies, bind.
  rewrite (import_each_filter _ _ _ Hok), app_nil_l.
  unfold lift, ret.
  destruct (filter (fun p => negb (importable imports p)) required_packages)
    as [| p rest].
  - split; [reflexivity |].
    split; [intros _; now apply Hmissing | reflexivity].
  - unfold print, ret. rewrite <- app_assoc.
    split; [reflexivity |].
    split; [discriminate |].
    intros Hall. apply Hmissing in Hall. discriminate.
Qed.

Lemma check_dependencies_report_witness :
  check_dependencies (imports_without ["seaborn"; "openpyxl"]) [] =
    ([EvPrint "❌ Missing packages: seaborn, openpyxl";
      EvPrint "Run: pip install seaborn openpyxl"],
     inr false)
  /\ check_dependencies (imports_without []) [] =
       ([EvPrint "✅ All required packages installed"], inr true).
Proof.
  split.
  - refine (proj1 (check_dependencies_report
                     (imports_without ["seaborn"; "openpyxl"]) [] _)).
    intros p e Hin. unfold imports_without.
    destruct (existsb (String.eqb p) ["seaborn"; "openpyxl"]); discriminate.
  - refine (proj1 (check_dependencies_report (imports_without []) [] _)).
    intros p e Hin. discriminate.
Defined.

Lemma import_each_raises (imports : string -> import_outcome)
    (before after missing_packages : list string) (p : string) (e : exn) :
  (forall q e', In q before -> imports q <> RaisesOther e') ->
  imports p = RaisesOther e ->
  import_each imports (before ++ p :: after) missing_packages = inl e.
Proof.
  revert missing_packages.
  induction before as [| q before IH]; intros missing_packages Hok Hp; simpl.
  - now rewrite Hp.
  - destruct (imports q) as [| | e'] eqn:Hq.
    + apply IH; [| exact Hp]. intros x e' Hin. apply Hok. now right.
    + apply IH; [| exact Hp]. intros x e' Hin. apply Hok. now right.
    + exfalso. apply (Hok q e'); [now left | exact Hq].
Qed.

(** X18: an exception other than [ImportError] raised while a required
    package is imported leaves [check_dependencies] at the first such
    package; nothing is printed and no value is returned. *)
Theorem check_dependencies_raises (imports : string -> import_outcome)
    (before after : list string) (p : string) (e : exn) (t : trace) :
  required_packages = (before ++ p :: after)%list ->
  (forall q e', In q before -> imports q <> RaisesOther e') ->
  imports p = RaisesOther e ->
  check_dependencies imports t = (t, inl e).
Proof.
  intros Hsplit Hok Hp. unfold check_dependencies, bind.
  rewrite Hsplit, (import_each_raises _ _ _ _ _ _ Hok Hp).
  reflexivity.
Qed.

Lemma check_dependencies_raises_witness :
  check_dependencies (imports_broken "numpy") [] =
    ([], inl (ValueError "numpy.dtype size changed")).
Proof.
  refine (check_dependencies_raises (imports_broken "numpy") ["pandas"]
            ["matplotlib"; "seaborn"; "openpyxl"; "requests"] "numpy"
            (ValueError "numpy.dtype size changed") [] eq_refl _ eq_refl).
  intros q e' [<- | []]. discriminate.
Defined.
